(** * LSPConfiguration: URI translation and client-capability negotiation

    A shallow embedding of [main/lsp/LSPConfiguration.cc].  Strings are
    [String.string]; a [string_view] whose end the code looks past is a
    record that also carries the byte stored after the view; faults
    (exceptions and undefined behaviour) are an explicit result type;
    the logger is the list of lines a call emits. *)

From Stdlib Require Import List Bool Arith ZArith Lia DecimalString Ascii String.
Import ListNotations.

Local Open Scope string_scope.

(* ------------------------------------------------------------------ *)
(** ** Results of fallible code *)

Inductive Fault : Type :=
| Raised (what : string)          (* Exception::raise, a failed ENFORCE *)
| EarlyReturnWithCode (code : Z)  (* options::EarlyReturnWithCode *)
| OutOfRange                      (* std::out_of_range from at / substr *)
| Undefined.                      (* a read or a range outside the viewed buffer *)

Inductive Outcome (A : Type) : Type :=
| Ok (a : A)
| Fail (f : Fault).

Arguments Ok {A} a.
Arguments Fail {A} f.

Definition bind {A B : Type} (m : Outcome A) (k : A -> Outcome B) : Outcome B :=
  match m with
  | Ok a => k a
  | Fail f => Fail f
  end.

Notation "x <- m ;; k" := (bind m (fun x => k))
  (at level 61, m at next level, right associativity).
Notation "m ;;; k" := (bind m (fun _ => k))
  (at level 61, right associativity).

(* ------------------------------------------------------------------ *)
(** ** std::string and std::string_view *)

Module Str.

Fixpoint drop (n : nat) (s : string) : string :=
  match n, s with
  | O, _ => s
  | S n', String _ s' => drop n' s'
  | S _, EmptyString => EmptyString
  end.

Fixpoint take (n : nat) (s : string) : string :=
  match n, s with
  | S n', String c s' => String c (take n' s')
  | _, _ => EmptyString
  end.

(** [occurs c s]: the character [c] appears in [s]. *)
Fixpoint occurs (c : ascii) (s : string) : bool :=
  match s with
  | EmptyString => false
  | String d s' => Ascii.eqb c d || occurs c s'
  end.

(** [std::string_view::substr(pos)]: throws when [pos > size()]. *)
Definition substr_from (s : string) (pos : nat) : Outcome string :=
  if Nat.ltb (length s) pos then Fail OutOfRange else Ok (drop pos s).

(** [std::string_view::at(pos)]: throws when [pos >= size()]. *)
Definition at_ (s : string) (pos : nat) : Outcome ascii :=
  match get pos s with
  | Some c => Ok c
  | None => Fail OutOfRange
  end.

End Str.

(** A [string_view] as [remoteName2Local] uses it: the characters in the
    view, and the byte stored right after them when there is one to read
    (the terminating NUL when the view covers a whole [std::string] or a
    literal). *)
Record string_view : Type := mk_view {
  sv_chars : string;
  sv_past : option ascii
}.

Definition NUL : ascii := Ascii.zero.

(** The implicit conversion from [std::string] (or a literal). *)
Definition view_of_string (s : string) : string_view :=
  {| sv_chars := s; sv_past := Some NUL |}.

(** [*(v.data() + k)]: inside the view the character, at its end the byte
    after it, further out nothing that may be read. *)
Definition deref (v : string_view) (k : nat) : option ascii :=
  match Nat.compare k (length (sv_chars v)) with
  | Lt => get k (sv_chars v)
  | Eq => sv_past v
  | Gt => None
  end.

(** [std::string(v.data() + k, v.end())]: the range must not be reversed. *)
Definition string_from (v : string_view) (k : nat) : Outcome string :=
  if Nat.ltb (length (sv_chars v)) k then Fail Undefined else Ok (Str.drop k (sv_chars v)).

Module Absl.

(** [absl::StartsWith(text, prefix)] *)
Fixpoint StartsWith (text prefix : string) {struct prefix} : bool :=
  match prefix, text with
  | EmptyString, _ => true
  | String _ _, EmptyString => false
  | String p prefix', String t text' => Ascii.eqb t p && StartsWith text' prefix'
  end.

(** [absl::EndsWith(text, suffix)] *)
Definition EndsWith (text suffix : string) : bool :=
  Nat.eqb (length suffix) 0 ||
  (Nat.leb (length suffix) (length text) &&
   String.eqb (Str.drop (length text - length suffix) text) suffix).

(** [absl::StrCat] *)
Definition StrCat (pieces : list string) : string :=
  fold_right append EmptyString pieces.

(** [absl::StrReplaceAll(s, {{from, to}})] with one replacement pair:
    a single left-to-right pass; at each position where [from] matches
    it is replaced and the scan resumes after the match.  [skip] counts
    the characters of a match still to be passed over.  An empty [from]
    is ignored. *)
Fixpoint replace_scan (from to : string) (skip : nat) (s : string) : string :=
  match s with
  | EmptyString => EmptyString
  | String c s' =>
      match skip with
      | S k => replace_scan from to k s'
      | O =>
          if negb (Nat.eqb (length from) 0) && StartsWith s from
          then to ++ replace_scan from to (length from - 1) s'
          else String c (replace_scan from to 0 s')
      end
  end.

Definition StrReplaceAll (s : string) (from to : string) : string :=
  replace_scan from to 0 s.

End Absl.

(** [contains s sub]: [sub] occurs in [s] as a substring. *)
Fixpoint contains (s sub : string) : bool :=
  Absl.StartsWith s sub ||
  match s with
  | EmptyString => false
  | String _ s' => contains s' sub
  end.

(* ------------------------------------------------------------------ *)
(** ** Data model *)

Inductive MarkupKind : Type := Plaintext | Markdown.

Definition MarkupKind_eqb (a b : MarkupKind) : bool :=
  match a, b with
  | Plaintext, Plaintext | Markdown, Markdown => true
  | _, _ => false
  end.

(** The handshake payload, as far as the constructor reads it. *)
Record CompletionItemCapabilities : Type := {
  snippetSupport : option bool;
  documentationFormat : option (list MarkupKind)
}.

Record CompletionClientCapabilities : Type := {
  completionItem : option CompletionItemCapabilities
}.

Record HoverCapabilities : Type := {
  contentFormat : option (list MarkupKind)
}.

Record TextDocumentClientCapabilities : Type := {
  completion : option CompletionClientCapabilities;
  hover : option HoverCapabilities
}.

Record ClientCapabilities : Type := {
  textDocument : option TextDocumentClientCapabilities
}.

Record SorbetInitializationOptions : Type := {
  supportsOperationNotifications : option bool;
  enableTypecheckInfo_opt : option bool;
  supportsSorbetURIs : option bool
}.

(** [rootUri] is a [variant<JSONNullObject, string>]: [None] is null. *)
Record InitializeParams : Type := {
  params_rootUri : option string;
  capabilities : ClientCapabilities;
  initializationOptions : option SorbetInitializationOptions
}.

Definition with_rootUri (p : InitializeParams) (u : option string) : InitializeParams :=
  {| params_rootUri := u;
     capabilities := capabilities p;
     initializationOptions := initializationOptions p |}.

Record LSPClientConfiguration : Type := {
  rootUri : string;
  clientCompletionItemSnippetSupport : bool;
  clientCompletionItemMarkupKind : MarkupKind;
  clientHoverMarkupKind : MarkupKind;
  enableOperationNotifications : bool;
  enableTypecheckInfo : bool;
  enableSorbetURIs : bool
}.

(** Modelled from the spec: the default member initialisers of
    [LSPClientConfiguration] are in its class definition, outside this
    file.  The spec gives them: an empty [rootUri], every boolean false,
    both markup kinds Plaintext. *)
Definition default_client_configuration : LSPClientConfiguration :=
  {| rootUri := "";
     clientCompletionItemSnippetSupport := false;
     clientCompletionItemMarkupKind := Plaintext;
     clientHoverMarkupKind := Plaintext;
     enableOperationNotifications := false;
     enableTypecheckInfo := false;
     enableSorbetURIs := false |}.

Record Options : Type := {
  rawInputDirNames : list string;
  absoluteIgnorePatterns : list string;
  relativeIgnorePatterns : list string;
  lspDirsMissingFromClient : list string
}.

(** The session object.  [clientConfig] is a [shared_ptr]: [None] is the
    null pointer.  The handles [output], [workers] and [logger] are not
    state of the object; what a call sends to the logger is part of its
    result. *)
Record LSPConfiguration : Type := {
  initialized : bool;
  opts : Options;
  skipConfigatron : bool;
  disableFastPath : bool;
  rootPath : string;
  clientConfig : option LSPClientConfiguration
}.

Definition with_clientConfig (c : LSPConfiguration)
    (cc : option LSPClientConfiguration) : LSPConfiguration :=
  {| initialized := initialized c;
     opts := opts c;
     skipConfigatron := skipConfigatron c;
     disableFastPath := disableFastPath c;
     rootPath := rootPath c;
     clientConfig := cc |}.

Definition with_initialized (c : LSPConfiguration) (b : bool) : LSPConfiguration :=
  {| initialized := b;
     opts := opts c;
     skipConfigatron := skipConfigatron c;
     disableFastPath := disableFastPath c;
     rootPath := rootPath c;
     clientConfig := clientConfig c |}.

(** Protocol positions hold [int]s, [core::Loc::Detail] holds [u4]s. *)
Record Position : Type := { line : Z; character : Z }.

Record Detail : Type := { detail_line : Z; detail_column : Z }.

Definition INT_MAX : Z := 2147483647.

Definition to_u4 (z : Z) : Z := z mod 4294967296.

(** External collaborators: [FileOps::isFileIgnored] and the parts of
    [core] (file table, line-offset table) the code calls. *)
Class FileOps : Type := {
  FileOps_isFileIgnored : string -> string -> list string -> list string -> bool
}.

Class Core : Type := {
  GlobalState : Type;
  FileRef : Type;
  File : Type;
  FileRef_exists : FileRef -> bool;
  FileRef_data : FileRef -> GlobalState -> File;
  File_isPayload : File -> bool;
  File_path : File -> string;
  Loc_pos2Offset : File -> Detail -> Z
}.

Record Loc `{Core} : Type := mkLoc {
  loc_file : FileRef;
  beginPos : Z;
  endPos : Z
}.

(* ------------------------------------------------------------------ *)
(** ** Operations *)

Definition sorbetScheme : string := "sorbet:".
Definition httpsScheme : string := "https".

Definition value_or {A : Type} (o : option A) (d : A) : A :=
  match o with Some a => a | None => d end.

(** [std::string::operator[]]: the character at [k]; at [size()] the
    terminator.  Every use below is guarded by a length test. *)
Definition index (s : string) (k : nat) : ascii :=
  match get k s with Some c => c | None => NUL end.

(** Dereference of a [shared_ptr]. *)
Definition pointee {A : Type} (p : option A) : Outcome A :=
  match p with Some a => Ok a | None => Fail Undefined end.

(** Modelled from the spec: the [ENFORCE] macro is defined outside this
    file; the spec reads a violated [ENFORCE] as a fault of the call. *)
Definition ENFORCE (cond : bool) : Outcome unit :=
  if cond then Ok tt else Fail (Raised "ENFORCE").

Definition getRootPath (o : Options) : Outcome string * list string :=
  if negb (Nat.eqb (List.length (rawInputDirNames o)) 1)
  then (Fail (EarlyReturnWithCode 1),
        ["Sorbet's language server requires a single input directory."])
  else (match nth_error (rawInputDirNames o) 0 with
        | Some d => Ok d
        | None => Fail OutOfRange
        end, []).

Definition getPreferredMarkupKind (formats : list MarkupKind) : MarkupKind :=
  match find (MarkupKind_eqb Markdown) formats with
  | Some _ => Markdown
  | None => Plaintext
  end.

(** The constructor [LSPConfiguration::LSPConfiguration]. *)
Definition LSPConfiguration_ctor (o : Options) (skipConfigatron' disableFastPath' : bool)
    : Outcome LSPConfiguration * list string :=
  let '(r, logged) := getRootPath o in
  (root <- r ;;
   Ok {| initialized := false;
         opts := o;
         skipConfigatron := skipConfigatron';
         disableFastPath := disableFastPath';
         rootPath := root;
         clientConfig := None |},
   logged).

Definition assertHasClientConfig (cfg : LSPConfiguration) : Outcome unit :=
  match clientConfig cfg with
  | None => Fail (Raised "clientConfig is not initialized.")
  | Some _ => Ok tt
  end.

(** The constructor [LSPClientConfiguration::LSPClientConfiguration].
    [substr(0, length() - 1)] starts at 0 and so cannot throw. *)
Definition LSPClientConfiguration_ctor (params : InitializeParams) : LSPClientConfiguration :=
  let d := default_client_configuration in
  let rootUri' :=
    match params_rootUri params with
    | Some rootUriString =>
        if Absl.EndsWith rootUriString "/"
        then Str.take (length rootUriString - 1) rootUriString
        else rootUriString
    | None => rootUri d
    end in
  let item :=
    match textDocument (capabilities params) with
    | Some td =>
        match completion td with
        | Some c => completionItem c
        | None => None
        end
    | None => None
    end in
  let snippet' :=
    match item with
    | Some ci => value_or (snippetSupport ci) false
    | None => clientCompletionItemSnippetSupport d
    end in
  let completionKind' :=
    match item with
    | Some ci =>
        match documentationFormat ci with
        | Some formats => getPreferredMarkupKind formats
        | None => clientCompletionItemMarkupKind d
        end
    | None => clientCompletionItemMarkupKind d
    end in
  let hoverKind' :=
    match textDocument (capabilities params) with
    | Some td =>
        match hover td with
        | Some h =>
            match contentFormat h with
            | Some formats => getPreferredMarkupKind formats
            | None => clientHoverMarkupKind d
            end
        | None => clientHoverMarkupKind d
        end
    | None => clientHoverMarkupKind d
    end in
  let init := initializationOptions params in
  {| rootUri := rootUri';
     clientCompletionItemSnippetSupport := snippet';
     clientCompletionItemMarkupKind := completionKind';
     clientHoverMarkupKind := hoverKind';
     enableOperationNotifications :=
       match init with
       | Some io => value_or (supportsOperationNotifications io) false
       | None => enableOperationNotifications d
       end;
     enableTypecheckInfo :=
       match init with
       | Some io => value_or (enableTypecheckInfo_opt io) false
       | None => enableTypecheckInfo d
       end;
     enableSorbetURIs :=
       match init with
       | Some io => value_or (supportsSorbetURIs io) false
       | None => enableSorbetURIs d
       end |}.

(** [setClientConfig] mutates the session object: the result is the
    object after the call and what the call did.  The argument is a
    [shared_ptr], [None] being null. *)
Definition setClientConfig (cfg : LSPConfiguration)
    (newConfig : option LSPClientConfiguration) : LSPConfiguration * Outcome unit :=
  match clientConfig cfg with
  | Some _ => (cfg, Fail (Raised "Cannot call setClientConfig twice in one session!"))
  | None => (with_clientConfig cfg newConfig, Ok tt)
  end.

Definition markInitialized (cfg : LSPConfiguration) : LSPConfiguration :=
  with_initialized cfg true.

Definition isInitialized (cfg : LSPConfiguration) : bool := initialized cfg.

Definition getClientConfig (cfg : LSPConfiguration) : Outcome LSPClientConfiguration :=
  assertHasClientConfig cfg ;;;
  pointee (clientConfig cfg).

Definition isUriInWorkspace (cfg : LSPConfiguration) (uri : string) : Outcome bool :=
  assertHasClientConfig cfg ;;;
  cc <- pointee (clientConfig cfg) ;;
  Ok (Absl.StartsWith uri (rootUri cc)).

Definition unrecognized_uri (uri : string) : string :=
  "Unrecognized URI received from client: " ++ uri.

(** [remoteName2Local]: the result and the lines sent to the logger. *)
Definition remoteName2Local (cfg : LSPConfiguration) (uri : string_view)
    : Outcome string * list string :=
  match (assertHasClientConfig cfg ;;; pointee (clientConfig cfg)) with
  | Fail f => (Fail f, [])
  | Ok cc =>
      let isSorbetURI := Absl.StartsWith (sv_chars uri) sorbetScheme in
      if negb (Absl.StartsWith (sv_chars uri) (rootUri cc))
         && negb (enableSorbetURIs cc) && negb isSorbetURI
      then (Ok (sv_chars uri), [unrecognized_uri (sv_chars uri)])
      else
        (let root := if isSorbetURI then sorbetScheme else rootUri cc in
         let start := length root in
         c <- match deref uri start with Some c => Ok c | None => Fail Undefined end ;;
         let start := if Ascii.eqb c "/" then S start else start in
         path <- string_from uri start ;;
         let isHttps :=
           isSorbetURI && Absl.StartsWith path httpsScheme
           && Nat.ltb (length httpsScheme) (length path)
           && (Ascii.eqb (index path (length httpsScheme)) ":"
               || Ascii.eqb (index path (length httpsScheme)) "%") in
         if isHttps then Ok (Absl.StrReplaceAll path "%3A" ":")
         else if Nat.ltb 0 (length (rootPath cfg))
              then Ok (Absl.StrCat [rootPath cfg; "/"; path])
              else Ok path,
         [])
  end.

Section WithFileOps.

Context `{FileOps}.

Definition isFileIgnored (cfg : LSPConfiguration) (filePath : string) : bool :=
  FileOps_isFileIgnored (rootPath cfg) filePath
    (absoluteIgnorePatterns (opts cfg)) (relativeIgnorePatterns (opts cfg)).

(** [localName2Remote] reads only characters inside the view it is
    given, so the view is its characters. *)
Definition localName2Remote (cfg : LSPConfiguration) (filePath : string) : Outcome string :=
  ENFORCE (Absl.StartsWith filePath (rootPath cfg)) ;;;
  assertHasClientConfig cfg ;;;
  relativeUri <- Str.substr_from filePath (length (rootPath cfg)) ;;
  c <- Str.at_ relativeUri 0 ;;
  let relativeUri := if Ascii.eqb c "/" then Str.drop 1 relativeUri else relativeUri in
  cc <- pointee (clientConfig cfg) ;;
  if Nat.eqb (length (rootUri cc)) 0 then Ok relativeUri
  else if enableSorbetURIs cc
          && FileOps_isFileIgnored (rootPath cfg) filePath
               (lspDirsMissingFromClient (opts cfg)) []
       then Ok (Absl.StrCat [sorbetScheme; relativeUri])
       else Ok (Absl.StrCat [rootUri cc; "/"; relativeUri]).

Section WithCore.

Context `{Core}.

(** The 1-based position [reqPos] that [lspPos2Loc] looks up.  Each sum
    is an [int] stored into a [u4]: it is taken in [Z] and reduced modulo
    2^32, which is that conversion wherever the [int] sum does not
    overflow. *)
Definition lspPos2Loc_reqPos (pos : Position) : Detail :=
  {| detail_line := to_u4 (line pos + 1);
     detail_column := to_u4 (character pos + 1) |}.

Definition lspPos2Loc (cfg : LSPConfiguration) (fref : FileRef) (pos : Position)
    (gs : GlobalState) : Loc :=
  let reqPos := lspPos2Loc_reqPos pos in
  let offset := Loc_pos2Offset (FileRef_data fref gs) reqPos in
  {| loc_file := fref; beginPos := offset; endPos := offset |}.

Definition fileRef2Uri (cfg : LSPConfiguration) (gs : GlobalState) (file : FileRef)
    : Outcome string :=
  assertHasClientConfig cfg ;;;
  if negb (FileRef_exists file) then Ok "???"
  else
    let messageFile := FileRef_data file gs in
    if File_isPayload messageFile
    then
      cc <- pointee (clientConfig cfg) ;;
      if enableSorbetURIs cc
      then Ok (Absl.StrCat [sorbetScheme; File_path messageFile])
      else Ok (File_path messageFile)
    else localName2Remote cfg (File_path (FileRef_data file gs)).

End WithCore.

End WithFileOps.

(** A second reading of the replacement pass for the pair the code uses,
    by cases on the next three characters; [decode_colon_eq] shows that
    [Absl.StrReplaceAll] with that pair computes it. *)
Fixpoint decode_colon (s : string) : string :=
  match s with
  | EmptyString => EmptyString
  | String c1 r1 =>
      match r1 with
      | String c2 (String c3 r3) =>
          if Ascii.eqb c1 "%" && Ascii.eqb c2 "3" && Ascii.eqb c3 "A"
          then String ":" (decode_colon r3)
          else String c1 (decode_colon r1)
      | _ => String c1 (decode_colon r1)
      end
  end.

(* ------------------------------------------------------------------ *)
(** ** Notions used to state the properties *)

(** What the client advertised for completion documentation and for
    hover content: [None] when the list, or any capability record on the
    way to it, is absent. *)
Definition advertised_documentationFormat (p : InitializeParams) : option (list MarkupKind) :=
  match textDocument (capabilities p) with
  | Some td =>
      match completion td with
      | Some c =>
          match completionItem c with
          | Some ci => documentationFormat ci
          | None => None
          end
      | None => None
      end
  | None => None
  end.

Definition advertised_contentFormat (p : InitializeParams) : option (list MarkupKind) :=
  match textDocument (capabilities p) with
  | Some td =>
      match hover td with
      | Some h => contentFormat h
      | None => None
      end
  | None => None
  end.

(** One leading '/' removed when there is one. *)
Definition strip_slash (s : string) : string :=
  if Absl.StartsWith s "/" then Str.drop 1 s else s.

(** The rootPath-relative mapping: under a non-empty [rootPath] the path
    is appended to it after a '/', under an empty one it is returned as
    it is. *)
Definition under_root (cfg : LSPConfiguration) (path : string) : string :=
  if Nat.ltb 0 (length (rootPath cfg)) then rootPath cfg ++ "/" ++ path else path.

(** A remainder that the code takes for a link to an external resource:
    "https" followed by ':' or by '%'. *)
Definition external_link (path : string) : bool :=
  Absl.StartsWith path "https:" || Absl.StartsWith path "https%".

(** The URI the code builds for the relative part [rel] of [filePath]. *)
Definition remote_name `{FileOps} (cfg : LSPConfiguration) (cc : LSPClientConfiguration)
    (filePath rel : string) : string :=
  if Nat.eqb (length (rootUri cc)) 0 then rel
  else if enableSorbetURIs cc
          && FileOps_isFileIgnored (rootPath cfg) filePath
               (lspDirsMissingFromClient (opts cfg)) []
       then sorbetScheme ++ rel
       else rootUri cc ++ "/" ++ rel.

(** [remoteName2Local (localName2Remote path)], the intermediate
    [std::string] being passed as a view of the whole of it. *)
Definition round_trip `{FileOps} (cfg : LSPConfiguration) (path : string)
    : Outcome string * list string :=
  match localName2Remote cfg path with
  | Ok remote => remoteName2Local cfg (view_of_string remote)
  | Fail f => (Fail f, [])
  end.

(** Sample collaborators and sessions, for evaluating the model. *)
Module Sample.

Definition never_ignored : FileOps :=
  {| FileOps_isFileIgnored := fun _ _ _ _ => false |}.

Record SampleFile : Type := {
  sample_path : string;
  sample_payload : bool;
  sample_lineStarts : list Z
}.

(** A file table indexed by reference; reference 0 does not exist. *)
Definition table : Core :=
  {| GlobalState := list SampleFile;
     FileRef := nat;
     File := SampleFile;
     FileRef_exists := fun r => Nat.ltb 0 r;
     FileRef_data := fun r gs =>
       nth (r - 1) gs
         {| sample_path := ""; sample_payload := false; sample_lineStarts := [] |};
     File_isPayload := sample_payload;
     File_path := sample_path;
     Loc_pos2Offset := fun f d =>
       (nth (Z.to_nat (detail_line d - 1)) (sample_lineStarts f) 0
        + (detail_column d - 1))%Z |}.

Definition options : Options :=
  {| rawInputDirNames := ["/ws"];
     absoluteIgnorePatterns := [];
     relativeIgnorePatterns := [];
     lspDirsMissingFromClient := [] |}.

Definition client (uri : string) (sorbetUris : bool) : LSPClientConfiguration :=
  {| rootUri := uri;
     clientCompletionItemSnippetSupport := false;
     clientCompletionItemMarkupKind := Plaintext;
     clientHoverMarkupKind := Plaintext;
     enableOperationNotifications := false;
     enableTypecheckInfo := false;
     enableSorbetURIs := sorbetUris |}.

Definition session (root : string) (cc : option LSPClientConfiguration)
    : LSPConfiguration :=
  {| initialized := false;
     opts := options;
     skipConfigatron := false;
     disableFastPath := false;
     rootPath := root;
     clientConfig := cc |}.

Definition params (uri : option string) : InitializeParams :=
  {| params_rootUri := uri;
     capabilities := {| textDocument := None |};
     initializationOptions := None |}.

End Sample.

(* ------------------------------------------------------------------ *)
(** ** File lookup, locations and the life of a session *)

(** More of [core]: the default-constructed [FileRef], lookup of a file
    by its path, and the conversion of a [Loc] to a protocol range and to
    1-based begin and end positions. *)
Class CoreLookup `{Core} : Type := {
  FileRef_default : FileRef;
  GlobalState_findFileByPath : GlobalState -> string -> FileRef
}.

(** [Range::fromLoc] returns a pointer: [None] is null. *)
Class CoreRanges `{Core} : Type := {
  Range : Type;
  Range_fromLoc : GlobalState -> Loc -> option Range;
  Loc_position : Loc -> GlobalState -> Detail * Detail
}.

Record Location `{CoreRanges} : Type := mkLocation {
  location_uri : string;
  location_range : Range
}.

(** A [u4] as [fmt::format] prints it with "{}": in decimal. *)
Definition decimal (z : Z) : string :=
  NilEmpty.string_of_uint (N.to_uint (Z.to_N z)).

Section WithLookup.

Context `{FileOps} `{CoreLookup}.

(** [uri2FileRef]: the reference found and the lines sent to the logger
    (by [remoteName2Local]). *)
Definition uri2FileRef (cfg : LSPConfiguration) (gs : GlobalState) (uri : string_view)
    : Outcome FileRef * list string :=
  match (assertHasClientConfig cfg ;;; pointee (clientConfig cfg)) with
  | Fail f => (Fail f, [])
  | Ok cc =>
      if negb (Absl.StartsWith (sv_chars uri) (rootUri cc))
         && negb (Absl.StartsWith (sv_chars uri) sorbetScheme)
      then (Ok FileRef_default, [])
      else
        let '(needle, logged) := remoteName2Local cfg uri in
        (path <- needle ;; Ok (GlobalState_findFileByPath gs path), logged)
  end.

End WithLookup.

Section WithRanges.

Context `{FileOps} `{CoreRanges}.

(** [loc2Location]: [Ok None] is the null pointer. *)
Definition loc2Location (cfg : LSPConfiguration) (gs : GlobalState) (loc : Loc)
    : Outcome (option Location) :=
  assertHasClientConfig cfg ;;;
  match Range_fromLoc gs loc with
  | None => Ok None
  | Some range =>
      uri <- fileRef2Uri cfg gs (loc_file loc) ;;
      cc <- pointee (clientConfig cfg) ;;
      let uri :=
        if FileRef_exists (loc_file loc)
           && File_isPayload (FileRef_data (loc_file loc) gs)
           && negb (enableSorbetURIs cc)
        then uri ++ "#L" ++ decimal (detail_line (fst (Loc_position loc gs)))
        else uri in
      Ok (Some {| location_uri := uri; location_range := range |})
  end.

End WithRanges.

(** The two methods that change a session, and a run of such calls on
    one session object; a call that raises leaves the object as it is and
    the run goes on (the caller caught the exception). *)
Inductive SessionCall : Type :=
| CallSetClientConfig (newConfig : option LSPClientConfiguration)
| CallMarkInitialized.

Definition call (cfg : LSPConfiguration) (c : SessionCall) : LSPConfiguration :=
  match c with
  | CallSetClientConfig newConfig => fst (setClientConfig cfg newConfig)
  | CallMarkInitialized => markInitialized cfg
  end.

Definition calls (cfg : LSPConfiguration) (cs : list SessionCall) : LSPConfiguration :=
  fold_left call cs cfg.

(** The URI-to-path-to-URI composition
    [localName2Remote (remoteName2Local uri)]. *)
Definition remote_round_trip `{FileOps} (cfg : LSPConfiguration) (uri : string_view)
    : Outcome string * list string :=
  let '(local, logged) := remoteName2Local cfg uri in
  (path <- local ;; localName2Remote cfg path, logged).

(** The first non-null configuration a run of calls tries to install. *)
Fixpoint first_config (cs : list SessionCall) : option LSPClientConfiguration :=
  match cs with
  | [] => None
  | CallSetClientConfig (Some cc) :: _ => Some cc
  | _ :: rest => first_config rest
  end.

(** The completion-item capabilities the client sent, [None] when any
    record on the way to them is absent. *)
Definition advertised_completionItem (p : InitializeParams)
    : option CompletionItemCapabilities :=
  match textDocument (capabilities p) with
  | Some td =>
      match completion td with
      | Some c => completionItem c
      | None => None
      end
  | None => None
  end.

(** Further sample collaborators. *)
Module SampleCore.

Fixpoint find_path (files : list Sample.SampleFile) (path : string) (n : nat) : nat :=
  match files with
  | [] => 0
  | f :: rest =>
      if String.eqb (Sample.sample_path f) path then n else find_path rest path (S n)
  end.

Definition lookup : @CoreLookup Sample.table :=
  {| FileRef_default := 0 : @FileRef Sample.table;
     GlobalState_findFileByPath := fun gs path => find_path gs path 1 |}.

(** Lines are counted by the line starts at or before the offset. *)
Definition ranges : @CoreRanges Sample.table :=
  {| Range := Z * Z;
     Range_fromLoc := fun gs loc =>
       if @FileRef_exists Sample.table (@loc_file Sample.table loc)
       then Some (@beginPos Sample.table loc, @endPos Sample.table loc)
       else None;
     Loc_position := fun loc gs =>
       let starts :=
         Sample.sample_lineStarts
           (@FileRef_data Sample.table (@loc_file Sample.table loc) gs) in
       let line_of := fun off =>
         Z.of_nat (List.length (filter (fun s => Z.leb s off) starts)) in
       ({| detail_line := line_of (@beginPos Sample.table loc); detail_column := 1 |},
        {| detail_line := line_of (@endPos Sample.table loc); detail_column := 1 |}) |}.

(** Ignore rules by prefix: a path is matched when it begins with
    [rootPath] followed by one of the absolute patterns. *)
Definition by_prefix : FileOps :=
  {| FileOps_isFileIgnored := fun root path absolute _ =>
       existsb (fun pattern => Absl.StartsWith path (root ++ pattern)) absolute |}.

(** A session whose client lacks the directories [missing]. *)
Definition session_without (root : string) (missing : list string)
    (cc : option LSPClientConfiguration) : LSPConfiguration :=
  {| initialized := false;
     opts := {| rawInputDirNames := [root];
                absoluteIgnorePatterns := [];
                relativeIgnorePatterns := [];
                lspDirsMissingFromClient := missing |};
     skipConfigatron := false;
     disableFastPath := false;
     rootPath := root;
     clientConfig := cc |}.

End SampleCore.

(* ================================================================== *)
(** * Properties *)

(** ** Strings *)

Section StringFacts.

Lemma length_app (a b : string) : length (a ++ b) = length a + length b.
Proof. induction a as [|c a IH]; simpl; [reflexivity | now rewrite IH]. Qed.

Lemma app_empty_r (a : string) : a ++ "" = a.
Proof. induction a as [|c a IH]; simpl; [reflexivity | now rewrite IH]. Qed.

Lemma app_assoc' (a b c : string) : (a ++ b) ++ c = a ++ b ++ c.
Proof. induction a as [|x a IH]; simpl; [reflexivity | now rewrite IH]. Qed.

Lemma drop_app (p s : string) : Str.drop (length p) (p ++ s) = s.
Proof. induction p as [|c p IH]; simpl; [reflexivity | exact IH]. Qed.

Lemma drop_all (s : string) : Str.drop (length s) s = "".
Proof. induction s as [|c s IH]; simpl; [reflexivity | exact IH]. Qed.

Lemma take_app (p s : string) : Str.take (length p) (p ++ s) = p.
Proof. induction p as [|c p IH]; simpl; [now destruct s | now rewrite IH]. Qed.

Lemma get_app_length (p : string) (c : ascii) (s : string) :
  get (length p) (p ++ String c s) = Some c.
Proof. induction p as [|d p IH]; simpl; [reflexivity | exact IH]. Qed.

Lemma StartsWith_empty (s : string) : Absl.StartsWith s "" = true.
Proof. reflexivity. Qed.

Lemma StartsWith_app (p s : string) : Absl.StartsWith (p ++ s) p = true.
Proof.
  induction p as [|c p IH]; simpl; [reflexivity|].
  now rewrite Ascii.eqb_refl, IH.
Qed.

(** A prefix [p] is found at the head of [s] exactly when [s] is [p]
    followed by something. *)
Lemma StartsWith_split (s p : string) :
  Absl.StartsWith s p = true -> s = p ++ Str.drop (length p) s.
Proof.
  revert s; induction p as [|c p IH]; intros s Hs; simpl in *.
  - reflexivity.
  - destruct s as [|d s]; [discriminate|].
    apply andb_true_iff in Hs as [Hc Hp].
    apply Ascii.eqb_eq in Hc; subst d.
    simpl. f_equal. now apply IH.
Qed.

Lemma StartsWith_length (s p : string) :
  Absl.StartsWith s p = true -> length p <= length s.
Proof.
  intros Hs. rewrite (StartsWith_split _ _ Hs), length_app. lia.
Qed.

(** A character that does not occur in [p] cuts the search for [p]:
    whether [u ++ c :: r] starts with [p] is decided by [u] alone. *)
Lemma StartsWith_separator (p u : string) (c : ascii) (r : string) :
  Str.occurs c p = false ->
  Absl.StartsWith (u ++ String c r) p = Absl.StartsWith u p.
Proof.
  revert u; induction p as [|a p IH]; intros u Hc.
  - reflexivity.
  - simpl in Hc. apply orb_false_iff in Hc as [Hca Hp].
    destruct u as [|b u]; simpl.
    + now rewrite Hca.
    + now rewrite IH.
Qed.

Lemma EndsWith_slash (s : string) : Absl.EndsWith (s ++ "/") "/" = true.
Proof.
  unfold Absl.EndsWith. simpl.
  rewrite length_app. simpl.
  replace (length s + 1 - 1) with (length s) by lia.
  rewrite drop_app.
  destruct (length s + 1) eqn:E; [lia | reflexivity].
Qed.

Lemma take_strip_slash (s : string) :
  Str.take (length (s ++ "/") - 1) (s ++ "/") = s.
Proof.
  rewrite length_app. simpl.
  replace (length s + 1 - 1) with (length s) by lia.
  apply take_app.
Qed.

End StringFacts.

(** ** The replacement pass *)

Section Decoding.

Lemma decode_colon_hit (r : string) :
  decode_colon ("%3A" ++ r) = String ":" (decode_colon r).
Proof. reflexivity. Qed.

Lemma decode_colon_miss (c : ascii) (r : string) :
  Absl.StartsWith (String c r) "%3A" = false ->
  decode_colon (String c r) = String c (decode_colon r).
Proof.
  intros Hm. destruct r as [|c2 [|c3 r3]]; try reflexivity.
  cbn [decode_colon]. cbn [Absl.StartsWith] in Hm.
  rewrite andb_true_r in Hm. rewrite <- andb_assoc, Hm. reflexivity.
Qed.

Lemma StartsWith_3A_inv (s : string) :
  Absl.StartsWith s "%3A" = true -> s = "%3A" ++ Str.drop 3 s.
Proof. intros Hs. exact (StartsWith_split s "%3A" Hs). Qed.

Lemma decode_colon_eq_bounded (n : nat) :
  forall s, length s <= n -> Absl.StrReplaceAll s "%3A" ":" = decode_colon s.
Proof.
  unfold Absl.StrReplaceAll.
  induction n as [|n IH]; intros s Hlen.
  - destruct s; [reflexivity | simpl in Hlen; lia].
  - destruct s as [|c r]; [reflexivity|].
    destruct (Absl.StartsWith (String c r) "%3A") eqn:Hm.
    + rewrite (StartsWith_3A_inv _ Hm) in Hlen |- *.
      set (rest := Str.drop 3 (String c r)) in *.
      rewrite decode_colon_hit.
      change ("%3A" ++ rest) with (String "%" (String "3" (String "A" rest))) in *.
      cbn [Absl.replace_scan length Nat.eqb negb andb Nat.sub].
      replace (Absl.StartsWith (String "%" (String "3" (String "A" rest))) "%3A")
        with true by reflexivity.
      cbn [append]. f_equal. apply IH. simpl in Hlen. lia.
    + rewrite (decode_colon_miss _ _ Hm).
      cbn [Absl.replace_scan length Nat.eqb negb andb].
      rewrite Hm. f_equal. apply IH. simpl in Hlen. lia.
Qed.

(** [Absl.StrReplaceAll] with the pair ("%3A", ":") is [decode_colon]. *)
Lemma decode_colon_eq (s : string) :
  Absl.StrReplaceAll s "%3A" ":" = decode_colon s.
Proof. apply (decode_colon_eq_bounded (length s)); lia. Qed.

Lemma decode_colon_cases (c : ascii) (r : string) :
  (exists rest, String c r = "%3A" ++ rest
                /\ decode_colon (String c r) = String ":" (decode_colon rest))
  \/ (Absl.StartsWith (String c r) "%3A" = false
      /\ decode_colon (String c r) = String c (decode_colon r)).
Proof.
  destruct (Absl.StartsWith (String c r) "%3A") eqn:Hm.
  - left. exists (Str.drop 3 (String c r)).
    split; [exact (StartsWith_3A_inv _ Hm)|].
    rewrite (StartsWith_3A_inv _ Hm) at 1. apply decode_colon_hit.
  - right. split; [reflexivity | now apply decode_colon_miss].
Qed.

(** A character other than ':' at the head of the output was copied
    from the head of the input. *)
Lemma decode_colon_head (s : string) (c : ascii) (t : string) :
  c <> ":"%char ->
  decode_colon s = String c t ->
  exists s', s = String c s' /\ t = decode_colon s'.
Proof.
  intros Hc Hd. destruct s as [|a r]; [discriminate|].
  destruct (decode_colon_cases a r) as [(rest & _ & Hhit) | (_ & Hmiss)].
  - rewrite Hhit in Hd. injection Hd as Hd _. now subst c.
  - rewrite Hmiss in Hd. injection Hd as -> <-. now exists r.
Qed.

Lemma decode_colon_complete_bounded (n : nat) :
  forall s, length s <= n -> contains (decode_colon s) "%3A" = false.
Proof.
  induction n as [|n IH]; intros s Hlen.
  - destruct s; [reflexivity | simpl in Hlen; lia].
  - destruct s as [|c r]; [reflexivity|].
    destruct (decode_colon_cases c r) as [(rest & Hs & Hhit) | (Hm & Hmiss)].
    + rewrite Hhit. cbn [contains].
      replace (Absl.StartsWith (String ":" (decode_colon rest)) "%3A") with false
        by reflexivity.
      apply IH. rewrite Hs in Hlen. simpl in Hlen. lia.
    + rewrite Hmiss. cbn [contains].
      rewrite (IH r) by (simpl in Hlen; lia).
      rewrite orb_false_r.
      destruct (Absl.StartsWith (String c (decode_colon r)) "%3A") eqn:Hout;
        [exfalso | reflexivity].
      apply StartsWith_3A_inv in Hout. simpl in Hout.
      injection Hout as -> Hr.
      apply decode_colon_head in Hr as (s1 & -> & Hr); [|discriminate].
      symmetry in Hr.
      apply decode_colon_head in Hr as (s2 & -> & _); [|discriminate].
      simpl in Hm. discriminate.
Qed.

(** No "%3A" is left in the output of the pass. *)
Lemma decode_colon_complete (s : string) :
  contains (Absl.StrReplaceAll s "%3A" ":") "%3A" = false.
Proof.
  rewrite decode_colon_eq.
  apply (decode_colon_complete_bounded (length s)); lia.
Qed.

(** Text without '%' is left as it is. *)
Lemma decode_colon_plain (s : string) :
  Str.occurs "%" s = false -> Absl.StrReplaceAll s "%3A" ":" = s.
Proof.
  rewrite decode_colon_eq.
  induction s as [|c r IH]; intros Hp; [reflexivity|].
  cbn [Str.occurs] in Hp. apply orb_false_iff in Hp as [Hc Hr].
  rewrite decode_colon_miss.
  - now rewrite IH.
  - cbn [Absl.StartsWith]. rewrite Ascii.eqb_sym, Hc. reflexivity.
Qed.

End Decoding.

(* ------------------------------------------------------------------ *)
(** ** Markup preference *)

Lemma find_markdown_some (formats : list MarkupKind) :
  In Markdown formats -> find (MarkupKind_eqb Markdown) formats = Some Markdown.
Proof.
  induction formats as [|k rest IH]; intros Hin; [contradiction|].
  destruct k; simpl.
  - destruct Hin as [Hk | Hin]; [discriminate | now apply IH].
  - reflexivity.
Qed.

Lemma find_markdown_none (formats : list MarkupKind) :
  ~ In Markdown formats -> find (MarkupKind_eqb Markdown) formats = None.
Proof.
  induction formats as [|k rest IH]; intros Hnot; [reflexivity|].
  destruct k; simpl.
  - apply IH. intros Hin. apply Hnot. now right.
  - exfalso. apply Hnot. now left.
Qed.

Lemma In_Markdown_dec (formats : list MarkupKind) :
  {In Markdown formats} + {~ In Markdown formats}.
Proof.
  apply in_dec. decide equality.
Defined.

(** C5.  [getPreferredMarkupKind] is a membership test with two outcomes:
    Markdown when Markdown is anywhere in the list, Plaintext otherwise;
    two lists that agree on whether they contain Markdown resolve to the
    same kind; and when the client advertised no list at all the
    negotiated kind (completion and hover alike) is Plaintext. *)
Theorem getPreferredMarkupKind_membership (formats other : list MarkupKind)
    (p : InitializeParams) :
  (In Markdown formats -> getPreferredMarkupKind formats = Markdown)
  /\ (~ In Markdown formats -> getPreferredMarkupKind formats = Plaintext)
  /\ ((In Markdown formats <-> In Markdown other) ->
      getPreferredMarkupKind formats = getPreferredMarkupKind other)
  /\ (advertised_documentationFormat p = None ->
      clientCompletionItemMarkupKind (LSPClientConfiguration_ctor p) = Plaintext)
  /\ (advertised_contentFormat p = None ->
      clientHoverMarkupKind (LSPClientConfiguration_ctor p) = Plaintext).
Proof.
  assert (Hyes : forall l, In Markdown l -> getPreferredMarkupKind l = Markdown).
  { intros l Hin. unfold getPreferredMarkupKind. now rewrite find_markdown_some. }
  assert (Hno : forall l, ~ In Markdown l -> getPreferredMarkupKind l = Plaintext).
  { intros l Hnot. unfold getPreferredMarkupKind. now rewrite find_markdown_none. }
  repeat split.
  - apply Hyes.
  - apply Hno.
  - intros Hiff. destruct (In_Markdown_dec formats) as [Hin | Hnot].
    + rewrite (Hyes _ Hin). symmetry. apply Hyes. now apply Hiff.
    + rewrite (Hno _ Hnot). symmetry. apply Hno. intros Hin. apply Hnot. now apply Hiff.
  - unfold advertised_documentationFormat, LSPClientConfiguration_ctor. simpl.
    destruct (textDocument (capabilities p)) as [td|]; [|reflexivity].
    destruct (completion td) as [c|]; [|reflexivity].
    destruct (completionItem c) as [ci|]; [|reflexivity].
    now intros ->.
  - unfold advertised_contentFormat, LSPClientConfiguration_ctor. simpl.
    destruct (textDocument (capabilities p)) as [td|]; [|reflexivity].
    destruct (hover td) as [h|]; [|reflexivity].
    now intros ->.
Qed.

Lemma getPreferredMarkupKind_membership_witness :
  (In Markdown [Plaintext; Markdown; Plaintext]
   /\ getPreferredMarkupKind [Plaintext; Markdown; Plaintext] = Markdown)
  /\ (~ In Markdown [Plaintext; Plaintext]
      /\ getPreferredMarkupKind [Plaintext; Plaintext] = Plaintext)
  /\ ((In Markdown [Plaintext; Markdown; Plaintext] <-> In Markdown [Markdown])
      /\ getPreferredMarkupKind [Plaintext; Markdown; Plaintext]
         = getPreferredMarkupKind [Markdown])
  /\ (advertised_documentationFormat (Sample.params None) = None
      /\ clientCompletionItemMarkupKind
           (LSPClientConfiguration_ctor (Sample.params None)) = Plaintext)
  /\ (advertised_contentFormat (Sample.params None) = None
      /\ clientHoverMarkupKind
           (LSPClientConfiguration_ctor (Sample.params None)) = Plaintext).
Proof.
  assert (Hin : In Markdown [Plaintext; Markdown; Plaintext]) by (simpl; auto).
  assert (Hnot : ~ In Markdown [Plaintext; Plaintext]).
  { simpl. intros [H | [H | H]]; try discriminate; exact H. }
  assert (Hiff : In Markdown [Plaintext; Markdown; Plaintext] <-> In Markdown [Markdown]).
  { simpl. split; auto. }
  pose proof (getPreferredMarkupKind_membership
                [Plaintext; Markdown; Plaintext] [Markdown] (Sample.params None))
    as (H1 & _ & H3 & H4 & H5).
  pose proof (getPreferredMarkupKind_membership
                [Plaintext; Plaintext] [] (Sample.params None))
    as (_ & H2 & _).
  repeat split; auto.
  - simpl; auto.
Defined.

(* ------------------------------------------------------------------ *)
(** ** Capability negotiation *)

Lemma ctor_rootUri_strip (p : InitializeParams) (s : string) :
  rootUri (LSPClientConfiguration_ctor (with_rootUri p (Some (s ++ "/")))) = s.
Proof.
  unfold LSPClientConfiguration_ctor. cbn [rootUri with_rootUri params_rootUri].
  rewrite EndsWith_slash. apply take_strip_slash.
Qed.

Lemma ctor_rootUri_keep (p : InitializeParams) (s : string) :
  Absl.EndsWith s "/" = false ->
  rootUri (LSPClientConfiguration_ctor (with_rootUri p (Some s))) = s.
Proof.
  intros Hs. unfold LSPClientConfiguration_ctor.
  cbn [rootUri with_rootUri params_rootUri]. now rewrite Hs.
Qed.

Lemma ctor_depends_on_rootUri (p : InitializeParams) (u v : option string) :
  rootUri (LSPClientConfiguration_ctor (with_rootUri p u))
  = rootUri (LSPClientConfiguration_ctor (with_rootUri p v)) ->
  LSPClientConfiguration_ctor (with_rootUri p u)
  = LSPClientConfiguration_ctor (with_rootUri p v).
Proof.
  unfold LSPClientConfiguration_ctor.
  cbn [rootUri with_rootUri params_rootUri capabilities initializationOptions].
  now intros ->.
Qed.

(** C6.  The constructor removes exactly one trailing '/' from [rootUri]
    (the rest of the text, a further trailing '/' included, is kept) and
    leaves a [rootUri] without a trailing '/' as it is; so payloads that
    differ only in that one trailing '/', such as "file:///a/b/" and
    "file:///a/b", negotiate to the same client configuration. *)
Theorem rootUri_trailing_slash (p : InitializeParams) (s : string) :
  rootUri (LSPClientConfiguration_ctor (with_rootUri p (Some (s ++ "/")))) = s
  /\ (Absl.EndsWith s "/" = false ->
      rootUri (LSPClientConfiguration_ctor (with_rootUri p (Some s))) = s)
  /\ (Absl.EndsWith s "/" = false ->
      LSPClientConfiguration_ctor (with_rootUri p (Some (s ++ "/")))
      = LSPClientConfiguration_ctor (with_rootUri p (Some s)))
  /\ LSPClientConfiguration_ctor (with_rootUri p (Some "file:///a/b/"))
     = LSPClientConfiguration_ctor (with_rootUri p (Some "file:///a/b")).
Proof.
  split; [apply ctor_rootUri_strip|].
  split; [apply ctor_rootUri_keep|].
  split.
  - intros Hs. apply ctor_depends_on_rootUri.
    now rewrite ctor_rootUri_strip, ctor_rootUri_keep.
  - apply ctor_depends_on_rootUri.
    change "file:///a/b/" with ("file:///a/b" ++ "/").
    rewrite ctor_rootUri_strip, ctor_rootUri_keep; reflexivity.
Qed.

Lemma rootUri_trailing_slash_witness :
  Absl.EndsWith "file:///a/b" "/" = false
  /\ rootUri (LSPClientConfiguration_ctor (Sample.params (Some "file:///a/b")))
     = "file:///a/b"
  /\ LSPClientConfiguration_ctor (Sample.params (Some "file:///a/b/"))
     = LSPClientConfiguration_ctor (Sample.params (Some "file:///a/b"))
  /\ rootUri (LSPClientConfiguration_ctor (Sample.params (Some "file:///a/b//")))
     = "file:///a/b/".
Proof.
  pose proof (rootUri_trailing_slash (Sample.params None) "file:///a/b")
    as (_ & Hkeep & Hsame & _).
  pose proof (rootUri_trailing_slash (Sample.params None) "file:///a/b/")
    as (Hstrip & _).
  split; [reflexivity|].
  split; [exact (Hkeep eq_refl)|].
  split; [exact (Hsame eq_refl) | exact Hstrip].
Defined.

(* ------------------------------------------------------------------ *)
(** ** Session configuration *)

(** C7.  On a session without a client configuration [setClientConfig]
    installs the one it is given; a second call, whatever its argument,
    raises, and the session after that failed call is the session before
    it, with the first configuration still installed. *)
Theorem setClientConfig_once (cfg : LSPConfiguration) (cc : LSPClientConfiguration)
    (again : option LSPClientConfiguration) :
  clientConfig cfg = None ->
  let installed := fst (setClientConfig cfg (Some cc)) in
  snd (setClientConfig cfg (Some cc)) = Ok tt
  /\ installed = with_clientConfig cfg (Some cc)
  /\ clientConfig installed = Some cc
  /\ snd (setClientConfig installed again)
     = Fail (Raised "Cannot call setClientConfig twice in one session!")
  /\ fst (setClientConfig installed again) = installed.
Proof.
  intros Hnone installed. subst installed.
  assert (Hfirst : setClientConfig cfg (Some cc) = (with_clientConfig cfg (Some cc), Ok tt)).
  { unfold setClientConfig. now rewrite Hnone. }
  rewrite Hfirst. cbn [fst snd].
  unfold setClientConfig. cbn [with_clientConfig clientConfig fst snd].
  repeat split; reflexivity.
Qed.

Lemma setClientConfig_once_witness :
  let cfg := Sample.session "/ws" None in
  let cc := Sample.client "file:///ws" false in
  let other := Sample.client "file:///elsewhere" true in
  clientConfig cfg = None
  /\ snd (setClientConfig cfg (Some cc)) = Ok tt
  /\ clientConfig (fst (setClientConfig cfg (Some cc))) = Some cc
  /\ snd (setClientConfig (fst (setClientConfig cfg (Some cc))) (Some other))
     = Fail (Raised "Cannot call setClientConfig twice in one session!")
  /\ clientConfig (fst (setClientConfig (fst (setClientConfig cfg (Some cc))) (Some other)))
     = Some cc.
Proof.
  intros cfg cc other.
  pose proof (setClientConfig_once cfg cc (Some other) eq_refl)
    as (H1 & _ & H3 & H4 & H5).
  split; [reflexivity|].
  split; [exact H1|].
  split; [exact H3|].
  split; [exact H4|].
  rewrite H5. exact H3.
Defined.

(* ------------------------------------------------------------------ *)
(** ** Positions *)

Lemma to_u4_succ (z : Z) : (0 <= z <= INT_MAX)%Z -> to_u4 (z + 1) = (z + 1)%Z.
Proof.
  unfold to_u4, INT_MAX. intros Hz. apply Z.mod_small. lia.
Qed.

Section Positions.

Context `{Core}.

(** C9.  For a 0-based protocol position, [lspPos2Loc] asks the file's
    line-offset table for the 1-based position (line + 1, character + 1)
    and returns the zero-width [Loc] at the byte offset it gets: begin
    and end offsets are equal.  Position (0, 0) is looked up as line 1,
    column 1. *)
Theorem lspPos2Loc_point (cfg : LSPConfiguration) (fref : FileRef) (pos : Position)
    (gs : GlobalState) :
  (0 <= line pos <= INT_MAX)%Z ->
  (0 <= character pos <= INT_MAX)%Z ->
  let reqPos := {| detail_line := line pos + 1; detail_column := character pos + 1 |} in
  let offset := Loc_pos2Offset (FileRef_data fref gs) reqPos in
  lspPos2Loc_reqPos pos = reqPos
  /\ lspPos2Loc cfg fref pos gs = {| loc_file := fref; beginPos := offset; endPos := offset |}
  /\ beginPos (lspPos2Loc cfg fref pos gs) = endPos (lspPos2Loc cfg fref pos gs)
  /\ (line pos = 0%Z -> character pos = 0%Z ->
      lspPos2Loc_reqPos pos = {| detail_line := 1; detail_column := 1 |}).
Proof.
  intros Hl Hc reqPos offset.
  assert (Hreq : lspPos2Loc_reqPos pos = reqPos).
  { unfold lspPos2Loc_reqPos, reqPos. now rewrite !to_u4_succ. }
  split; [exact Hreq|].
  split; [unfold lspPos2Loc; now rewrite Hreq|].
  split; [reflexivity|].
  intros Hl0 Hc0. rewrite Hreq. unfold reqPos. now rewrite Hl0, Hc0.
Qed.

End Positions.

Lemma lspPos2Loc_point_witness :
  let cfg := Sample.session "/ws" (Some (Sample.client "file:///ws" false)) in
  let file := {| Sample.sample_path := "/ws/a.rb"; Sample.sample_payload := false;
                 Sample.sample_lineStarts := [0; 12; 30]%Z |} in
  let origin := {| line := 0; character := 0 |} in
  let pos := {| line := 1; character := 4 |} in
  (@lspPos2Loc_reqPos origin = {| detail_line := 1; detail_column := 1 |}
   /\ @lspPos2Loc Sample.table cfg 1 origin [file]
      = @mkLoc Sample.table 1 0%Z 0%Z)
  /\ (@lspPos2Loc_reqPos pos = {| detail_line := 2; detail_column := 5 |}
      /\ @lspPos2Loc Sample.table cfg 1 pos [file]
         = @mkLoc Sample.table 1 16%Z 16%Z).
Proof.
  intros cfg file origin pos.
  assert (Hrange0 : (0 <= 0 <= INT_MAX)%Z) by (unfold INT_MAX; lia).
  assert (Hrange1 : (0 <= 1 <= INT_MAX)%Z) by (unfold INT_MAX; lia).
  assert (Hrange4 : (0 <= 4 <= INT_MAX)%Z) by (unfold INT_MAX; lia).
  pose proof (@lspPos2Loc_point Sample.table cfg 1 origin [file] Hrange0 Hrange0)
    as (_ & Hloc0 & _ & Horigin).
  pose proof (@lspPos2Loc_point Sample.table cfg 1 pos [file] Hrange1 Hrange4)
    as (Hreq & Hloc & _).
  split; split.
  - exact (Horigin eq_refl eq_refl).
  - exact Hloc0.
  - exact Hreq.
  - exact Hloc.
Defined.

(* ------------------------------------------------------------------ *)
(** ** URI translation: from the client to local paths *)

Section ViewFacts.

Lemma StartsWith_app_r (s p q : string) :
  Absl.StartsWith s (p ++ q)
  = Absl.StartsWith s p && Absl.StartsWith (Str.drop (length p) s) q.
Proof.
  revert s; induction p as [|a p IH]; intros s; [reflexivity|].
  destruct s as [|b s]; cbn [append Absl.StartsWith length Str.drop].
  - reflexivity.
  - now rewrite IH, andb_assoc.
Qed.

Lemma compare_length_app (p : string) (c : ascii) (r : string) :
  Nat.compare (length p) (length (p ++ String c r)) = Lt.
Proof. apply Nat.compare_lt_iff. rewrite length_app. simpl. lia. Qed.

Lemma deref_inside (v : string_view) (p : string) (c : ascii) (r : string) :
  sv_chars v = p ++ String c r -> deref v (length p) = Some c.
Proof.
  intros Hv. unfold deref. rewrite Hv, compare_length_app. apply get_app_length.
Qed.

Lemma deref_end (v : string_view) :
  deref v (length (sv_chars v)) = sv_past v.
Proof. unfold deref. now rewrite Nat.compare_refl. Qed.

Lemma string_from_app (v : string_view) (p r : string) :
  sv_chars v = p ++ r -> string_from v (length p) = Ok r.
Proof.
  intros Hv. unfold string_from. rewrite Hv, length_app, drop_app.
  destruct (Nat.ltb_spec (length p + length r) (length p)); [lia | reflexivity].
Qed.

Lemma string_from_app_next (v : string_view) (p : string) (c : ascii) (r : string) :
  sv_chars v = p ++ String c r -> string_from v (S (length p)) = Ok r.
Proof.
  intros Hv.
  replace (S (length p)) with (length (p ++ String c "")) by (rewrite length_app; simpl; lia).
  apply string_from_app. rewrite Hv, app_assoc'. reflexivity.
Qed.

(** The test the code makes on the remainder is [external_link]. *)
Lemma isHttps_external_link (path : string) :
  Absl.StartsWith path httpsScheme
  && Nat.ltb (length httpsScheme) (length path)
  && (Ascii.eqb (index path (length httpsScheme)) ":"
      || Ascii.eqb (index path (length httpsScheme)) "%")
  = external_link path.
Proof.
  unfold external_link.
  change "https:" with (httpsScheme ++ ":"). change "https%" with (httpsScheme ++ "%").
  rewrite !StartsWith_app_r.
  destruct (Absl.StartsWith path httpsScheme) eqn:Hs; [|reflexivity].
  rewrite (StartsWith_split _ _ Hs).
  rewrite drop_app, length_app.
  destruct (Str.drop (length httpsScheme) path) as [|c t].
  - reflexivity.
  - cbn [andb]. unfold index. rewrite get_app_length.
    replace (Nat.ltb (length httpsScheme) (length httpsScheme + length (String c t)))
      with true by (symmetry; apply Nat.ltb_lt; simpl; lia).
    cbn [Absl.StartsWith andb]. now rewrite !andb_true_r.
Qed.

End ViewFacts.

Section Resolution.

Variables (cfg : LSPConfiguration) (cc : LSPClientConfiguration) (uri : string_view).
Hypothesis Hinstalled : clientConfig cfg = Some cc.

Lemma clientConfig_installed :
  (assertHasClientConfig cfg ;;; pointee (clientConfig cfg)) = Ok cc.
Proof. unfold assertHasClientConfig. now rewrite Hinstalled. Qed.

(** What the code computes once it has decided not to fall back:
    [root] is the prefix it strips, [rest] what follows it in the URI. *)
Lemma remoteName2Local_resolve (sorbet : bool) (rest : string) :
  Absl.StartsWith (sv_chars uri) sorbetScheme = sorbet ->
  sorbet = true \/ enableSorbetURIs cc = true
    \/ Absl.StartsWith (sv_chars uri) (rootUri cc) = true ->
  sv_chars uri = (if sorbet then sorbetScheme else rootUri cc) ++ rest ->
  rest <> "" \/ (exists c, sv_past uri = Some c /\ c <> "/"%char) ->
  remoteName2Local cfg uri
  = (Ok (if sorbet && external_link (strip_slash rest)
         then Absl.StrReplaceAll (strip_slash rest) "%3A" ":"
         else under_root cfg (strip_slash rest)),
     []).
Proof.
  intros Hsorbet Hguard Hsplit Hread.
  unfold remoteName2Local. rewrite clientConfig_installed, Hsorbet.
  replace (negb (Absl.StartsWith (sv_chars uri) (rootUri cc))
           && negb (enableSorbetURIs cc) && negb sorbet) with false
    by (destruct Hguard as [-> | [-> | ->]];
        now rewrite ?andb_false_r, ?andb_false_l).
  set (root := if sorbet then sorbetScheme else rootUri cc) in *.
  f_equal.
  assert (Hfinish : forall path,
    (if sorbet && Absl.StartsWith path httpsScheme
        && Nat.ltb (length httpsScheme) (length path)
        && (Ascii.eqb (index path (length httpsScheme)) ":"
            || Ascii.eqb (index path (length httpsScheme)) "%")
     then Ok (Absl.StrReplaceAll path "%3A" ":")
     else if Nat.ltb 0 (length (rootPath cfg))
          then Ok (Absl.StrCat [rootPath cfg; "/"; path])
          else Ok path)
    = Ok (if sorbet && external_link path
          then Absl.StrReplaceAll path "%3A" ":"
          else under_root cfg path)).
  { intros path. rewrite <- !andb_assoc, (andb_assoc (Absl.StartsWith _ _)).
    rewrite isHttps_external_link. unfold under_root, Absl.StrCat.
    cbn [fold_right]. rewrite app_empty_r.
    destruct (sorbet && external_link path); [reflexivity|].
    now destruct (Nat.ltb 0 (length (rootPath cfg))). }
  destruct rest as [|c r].
  - destruct Hread as [Hne | (c & Hpast & Hc)]; [contradiction|].
    rewrite app_empty_r in Hsplit.
    rewrite <- Hsplit at 1. rewrite deref_end, Hpast. cbn [bind].
    apply Ascii.eqb_neq in Hc. rewrite Hc.
    rewrite (string_from_app uri root "") by (now rewrite app_empty_r).
    cbn [bind]. apply Hfinish.
  - rewrite (deref_inside uri root c r Hsplit). cbn [bind].
    unfold strip_slash. cbn [Absl.StartsWith Str.drop]. rewrite andb_true_r.
    destruct (Ascii.eqb c "/").
    + rewrite (string_from_app_next uri root c r Hsplit). cbn [bind]. apply Hfinish.
    + rewrite (string_from_app uri root _ Hsplit). cbn [bind]. apply Hfinish.
Qed.

(** C4.  With a client that does not support the synthetic scheme, a URI
    that begins with neither "sorbet:" nor the client's [rootUri] is
    returned unchanged, one error line is logged, and nothing is raised. *)
Theorem remoteName2Local_unrecognized :
  enableSorbetURIs cc = false ->
  Absl.StartsWith (sv_chars uri) sorbetScheme = false ->
  Absl.StartsWith (sv_chars uri) (rootUri cc) = false ->
  remoteName2Local cfg uri
  = (Ok (sv_chars uri), [unrecognized_uri (sv_chars uri)]).
Proof.
  intros Hno Hscheme Hroot.
  unfold remoteName2Local.
  now rewrite clientConfig_installed, Hscheme, Hroot, Hno.
Qed.

(** C10.  With an empty [rootUri] the fallback is never taken, whatever
    [enableSorbetURIs] is: no call logs, and every URI is resolved, one
    that begins with "sorbet:" through the synthetic scheme and any other
    as a path relative to the workspace.  (The result is stated wherever
    the character the code inspects after the prefix exists: the
    remainder is not empty, or the view is followed by a readable byte
    other than '/', as a view of a whole string is.) *)
Theorem remoteName2Local_empty_rootUri :
  rootUri cc = "" ->
  let sorbet := Absl.StartsWith (sv_chars uri) sorbetScheme in
  let rest := Str.drop (length (if sorbet then sorbetScheme else "")) (sv_chars uri) in
  snd (remoteName2Local cfg uri) = []
  /\ (rest <> "" \/ (exists c, sv_past uri = Some c /\ c <> "/"%char) ->
      fst (remoteName2Local cfg uri)
      = Ok (if sorbet && external_link (strip_slash rest)
            then Absl.StrReplaceAll (strip_slash rest) "%3A" ":"
            else under_root cfg (strip_slash rest))).
Proof.
  intros Hempty sorbet rest. split.
  - unfold remoteName2Local. rewrite clientConfig_installed, Hempty.
    cbn [Absl.StartsWith negb andb]. reflexivity.
  - intros Hread.
    rewrite (remoteName2Local_resolve sorbet rest); try reflexivity; try assumption.
    + right; right. now rewrite Hempty.
    + rewrite Hempty. subst rest. fold sorbet.
      destruct sorbet eqn:Hs; [|reflexivity].
      now apply StartsWith_split.
Qed.

End Resolution.

Lemma remoteName2Local_unrecognized_witness :
  let cfg := Sample.session "/ws" (Some (Sample.client "file:///ws" false)) in
  let uri := view_of_string "untitled:Untitled-1" in
  remoteName2Local cfg uri
  = (Ok "untitled:Untitled-1",
     ["Unrecognized URI received from client: untitled:Untitled-1"]).
Proof.
  intros cfg uri.
  exact (remoteName2Local_unrecognized cfg (Sample.client "file:///ws" false) uri
           eq_refl eq_refl eq_refl eq_refl).
Defined.

Lemma remoteName2Local_empty_rootUri_witness :
  let plain := Sample.session "/ws" (Some (Sample.client "" false)) in
  let synthetic := Sample.session "/ws" (Some (Sample.client "" true)) in
  (snd (remoteName2Local plain (view_of_string "untitled:Untitled-1")) = []
   /\ fst (remoteName2Local plain (view_of_string "untitled:Untitled-1"))
      = Ok "/ws/untitled:Untitled-1")
  /\ (snd (remoteName2Local synthetic (view_of_string "sorbet:lib/a.rb")) = []
      /\ fst (remoteName2Local synthetic (view_of_string "sorbet:lib/a.rb"))
         = Ok "/ws/lib/a.rb").
Proof.
  intros plain synthetic.
  pose proof (remoteName2Local_empty_rootUri plain (Sample.client "" false)
                (view_of_string "untitled:Untitled-1") eq_refl eq_refl) as (Hlog1 & Hres1).
  pose proof (remoteName2Local_empty_rootUri synthetic (Sample.client "" true)
                (view_of_string "sorbet:lib/a.rb") eq_refl eq_refl) as (Hlog2 & Hres2).
  split; split.
  - exact Hlog1.
  - apply Hres1. left. discriminate.
  - exact Hlog2.
  - apply Hres2. left. discriminate.
Defined.

Section ExternalLinks.

Variables (cfg : LSPConfiguration) (cc : LSPClientConfiguration) (uri : string_view).
Hypothesis Hinstalled : clientConfig cfg = Some cc.

Lemma external_link_after_https (c : ascii) (tail : string) :
  external_link (httpsScheme ++ String c tail) = Ascii.eqb c ":" || Ascii.eqb c "%".
Proof.
  unfold external_link.
  change "https:" with (httpsScheme ++ ":"). change "https%" with (httpsScheme ++ "%").
  rewrite !StartsWith_app_r, StartsWith_app, drop_app.
  cbn [Absl.StartsWith andb]. now rewrite !andb_true_r.
Qed.

(** C2, as the code has it.  For a URI "sorbet:" + remainder, or
    "sorbet:/" + remainder, whose remainder is "https" followed by ':' or
    by '%' (the code looks at that one character, not at the whole of
    "%3A"), [remoteName2Local] returns the remainder with every "%3A"
    replaced by ":" and does not prefix [rootPath]; none is left in the
    result.  When "https" is followed by any other character the
    rootPath-relative mapping applies.  "sorbet:https%3A//example.com/x"
    gives "https://example.com/x". *)
Theorem remoteName2Local_external_link (path : string) (c : ascii) (tail : string) :
  sv_chars uri = sorbetScheme ++ path \/ sv_chars uri = sorbetScheme ++ "/" ++ path ->
  path = httpsScheme ++ String c tail ->
  (c = ":"%char \/ c = "%"%char ->
   remoteName2Local cfg uri = (Ok (Absl.StrReplaceAll path "%3A" ":"), [])
   /\ contains (Absl.StrReplaceAll path "%3A" ":") "%3A" = false)
  /\ (c <> ":"%char -> c <> "%"%char ->
      remoteName2Local cfg uri = (Ok (under_root cfg path), []))
  /\ remoteName2Local cfg (view_of_string "sorbet:https%3A//example.com/x")
     = (Ok "https://example.com/x", []).
Proof.
  intros Huri Hpath.
  assert (Hresolve : forall (v : string_view) (p : string) (d : ascii) (t : string),
    sv_chars v = sorbetScheme ++ p \/ sv_chars v = sorbetScheme ++ "/" ++ p ->
    p = httpsScheme ++ String d t ->
    remoteName2Local cfg v
    = (Ok (if Ascii.eqb d ":" || Ascii.eqb d "%"
           then Absl.StrReplaceAll p "%3A" ":"
           else under_root cfg p), [])).
  { intros v p d t Hv Hp.
    assert (Hstrip : forall rest, rest = p \/ rest = "/" ++ p -> strip_slash rest = p).
    { intros rest [-> | ->]; [|reflexivity]. now rewrite Hp. }
    assert (Hsplit : exists rest, sv_chars v = sorbetScheme ++ rest
                                  /\ (rest = p \/ rest = "/" ++ p)).
    { destruct Hv as [Hv | Hv]; [exists p | exists ("/" ++ p)]; auto. }
    destruct Hsplit as (rest & Hrest & Hcases).
    rewrite (remoteName2Local_resolve cfg cc v Hinstalled true rest).
    - rewrite (Hstrip rest Hcases). cbn [andb].
      rewrite Hp at 1. now rewrite external_link_after_https.
    - rewrite Hrest. apply StartsWith_app.
    - now left.
    - exact Hrest.
    - left. destruct Hcases as [-> | ->]; [rewrite Hp|]; discriminate. }
  split; [|split].
  - intros Hc. split; [|apply decode_colon_complete].
    rewrite (Hresolve uri path c tail Huri Hpath).
    now destruct Hc as [-> | ->].
  - intros Hcolon Hpercent.
    rewrite (Hresolve uri path c tail Huri Hpath).
    apply Ascii.eqb_neq in Hcolon, Hpercent. now rewrite Hcolon, Hpercent.
  - rewrite (Hresolve (view_of_string "sorbet:https%3A//example.com/x")
               "https%3A//example.com/x" "%"%char "3A//example.com/x");
      [reflexivity | now left | reflexivity].
Qed.

End ExternalLinks.

Lemma remoteName2Local_external_link_witness :
  let cfg := Sample.session "/ws" (Some (Sample.client "file:///ws" true)) in
  remoteName2Local cfg (view_of_string "sorbet:/https://example.com/a%3Ab")
  = (Ok "https://example.com/a:b", [])
  /\ remoteName2Local cfg (view_of_string "sorbet:https%3A//example.com/x")
     = (Ok "https://example.com/x", [])
  /\ remoteName2Local cfg (view_of_string "sorbet:https-notes/a.rb")
     = (Ok "/ws/https-notes/a.rb", []).
Proof.
  intros cfg.
  pose proof (remoteName2Local_external_link cfg (Sample.client "file:///ws" true)
                (view_of_string "sorbet:/https://example.com/a%3Ab") eq_refl
                "https://example.com/a%3Ab" ":"%char "//example.com/a%3Ab"
                (or_intror eq_refl) eq_refl) as (Hcolon & _ & Hexample).
  pose proof (remoteName2Local_external_link cfg (Sample.client "file:///ws" true)
                (view_of_string "sorbet:https-notes/a.rb") eq_refl
                "https-notes/a.rb" "-"%char "notes/a.rb"
                (or_introl eq_refl) eq_refl) as (_ & Hother & _).
  split; [|split].
  - exact (proj1 (Hcolon (or_introl eq_refl))).
  - exact Hexample.
  - apply Hother; discriminate.
Defined.

(** C2, as the spec words it, fails where "https" is followed by a '%'
    that does not begin "%3A": the remainder of "sorbet:https%20x" begins
    with "https" followed by neither ':' nor "%3A", yet the result is the
    remainder itself, not the rootPath-relative "/ws/https%20x". *)
Lemma remoteName2Local_percent_counterexample :
  let cfg := Sample.session "/ws" (Some (Sample.client "file:///ws" false)) in
  let remainder := "https%20x" in
  let uri := view_of_string (sorbetScheme ++ remainder) in
  Absl.StartsWith (sv_chars uri) sorbetScheme = true
  /\ Absl.StartsWith remainder httpsScheme = true
  /\ Absl.StartsWith remainder "https:" = false
  /\ Absl.StartsWith remainder "https%3A" = false
  /\ remoteName2Local cfg uri = (Ok "https%20x", [])
  /\ remoteName2Local cfg uri <> (Ok (under_root cfg remainder), []).
Proof.
  cbv zeta. repeat split; try reflexivity.
  vm_compute. discriminate.
Qed.

(* ------------------------------------------------------------------ *)
(** ** URI translation: from local paths to the client *)

Section LocalToRemote.

Context `{FileOps}.
Variables (cfg : LSPConfiguration) (cc : LSPClientConfiguration).
Hypothesis Hinstalled : clientConfig cfg = Some cc.

(** A path that is [rootPath] followed by something is translated: the
    prefix goes, then one leading '/' when there is one. *)
Lemma localName2Remote_below (rem : string) :
  rem <> "" ->
  localName2Remote cfg (rootPath cfg ++ rem)
  = Ok (remote_name cfg cc (rootPath cfg ++ rem) (strip_slash rem)).
Proof.
  intros Hrem. unfold localName2Remote.
  rewrite StartsWith_app. cbn [ENFORCE bind].
  unfold assertHasClientConfig. rewrite Hinstalled. cbn [bind pointee].
  unfold Str.substr_from. rewrite length_app, drop_app.
  destruct (Nat.ltb_spec (length (rootPath cfg) + length rem) (length (rootPath cfg)));
    [lia|].
  cbn [bind].
  destruct rem as [|c r]; [contradiction|].
  cbn [Str.at_ get bind].
  unfold remote_name, strip_slash, Absl.StrCat.
  cbn [Absl.StartsWith Str.drop fold_right]. rewrite andb_true_r, !app_empty_r.
  destruct (Ascii.eqb c "/"); destruct (Nat.eqb (length (rootUri cc)) 0); try reflexivity;
    destruct (enableSorbetURIs cc && _); reflexivity.
Qed.

(** The path [rootPath] itself satisfies the precondition the code
    asserts, and the code then asks for the first character of an empty
    remainder. *)
Lemma localName2Remote_at_root :
  Absl.StartsWith (rootPath cfg) (rootPath cfg) = true
  /\ localName2Remote cfg (rootPath cfg) = Fail OutOfRange.
Proof.
  assert (Hself : Absl.StartsWith (rootPath cfg) (rootPath cfg) = true).
  { rewrite <- (app_empty_r (rootPath cfg)) at 1. apply StartsWith_app. }
  split; [exact Hself|].
  unfold localName2Remote. rewrite Hself. cbn [ENFORCE bind].
  unfold assertHasClientConfig. rewrite Hinstalled. cbn [bind].
  unfold Str.substr_from. rewrite Nat.ltb_irrefl, drop_all. reflexivity.
Qed.

Lemma under_root_nonempty (path : string) :
  rootPath cfg <> "" -> under_root cfg path = rootPath cfg ++ "/" ++ path.
Proof.
  intros Hroot. unfold under_root.
  destruct (rootPath cfg); [contradiction | reflexivity].
Qed.

(** With an empty [rootPath] (the current directory) the path is the
    relative part itself. *)
Lemma under_root_empty (path : string) :
  rootPath cfg = "" -> under_root cfg path = path.
Proof. intros Hroot. unfold under_root. now rewrite Hroot. Qed.

(** C1, as the code has it.  Let the path be strictly under [rootPath]:
    [rootPath], a '/', and a non-empty relative part or, when
    [rootPath] is empty (the current directory), a non-empty relative
    part that does not begin with '/'.  Let the client not use the
    synthetic scheme.  If [rootUri] does not begin with "sorbet:" and,
    when [rootUri] is empty, the relative part begins with neither
    "sorbet:" nor '/', then translating the path to a URI and back gives
    the path again, without logging, whatever the ignore rules are. *)
Theorem round_trip_under_root (rel : string) :
  enableSorbetURIs cc = false ->
  rel <> "" ->
  (rootPath cfg = "" -> Absl.StartsWith rel "/" = false) ->
  Absl.StartsWith (rootUri cc) sorbetScheme = false ->
  (rootUri cc = "" ->
   Absl.StartsWith rel sorbetScheme = false /\ Absl.StartsWith rel "/" = false) ->
  round_trip cfg (under_root cfg rel) = (Ok (under_root cfg rel), []).
Proof.
  intros Hplain Hrel Hrelative Hscheme Hempty.
  assert (Hback : forall rem,
    (rem = "/" ++ rel \/ (rem = rel /\ Absl.StartsWith rel "/" = false)) ->
    localName2Remote cfg (rootPath cfg ++ rem)
    = Ok (if Nat.eqb (length (rootUri cc)) 0 then rel else rootUri cc ++ "/" ++ rel)).
  { intros rem Hrem.
    assert (Hne : rem <> "") by (destruct Hrem as [-> | [-> _]]; [discriminate | exact Hrel]).
    rewrite (localName2Remote_below rem Hne).
    unfold remote_name. rewrite Hplain. cbn [andb].
    replace (strip_slash rem) with rel; [reflexivity|].
    destruct Hrem as [-> | [-> Hslash]]; [reflexivity|].
    unfold strip_slash. now rewrite Hslash. }
  assert (Hforth : forall there,
    remoteName2Local cfg
      (view_of_string
         (if Nat.eqb (length (rootUri cc)) 0 then rel else rootUri cc ++ "/" ++ rel))
    = (Ok there, []) ->
    forall rem, localName2Remote cfg (rootPath cfg ++ rem)
                = Ok (if Nat.eqb (length (rootUri cc)) 0
                      then rel else rootUri cc ++ "/" ++ rel) ->
    round_trip cfg (rootPath cfg ++ rem) = (Ok there, [])).
  { intros there Hthere rem Hlocal. unfold round_trip. now rewrite Hlocal. }
  assert (Hthere : remoteName2Local cfg
            (view_of_string
               (if Nat.eqb (length (rootUri cc)) 0 then rel else rootUri cc ++ "/" ++ rel))
          = (Ok (under_root cfg rel), [])).
  { destruct (Nat.eqb_spec (length (rootUri cc)) 0) as [Hlen | Hlen].
    - assert (Huri : rootUri cc = "")
        by (destruct (rootUri cc); [reflexivity | discriminate]).
      destruct (Hempty Huri) as [Hnot_scheme Hnot_slash].
      rewrite (remoteName2Local_resolve cfg cc (view_of_string rel) Hinstalled false rel).
      + cbn [andb]. unfold strip_slash. now rewrite Hnot_slash.
      + exact Hnot_scheme.
      + right; right. now rewrite Huri.
      + now rewrite Huri.
      + now left.
    - rewrite (remoteName2Local_resolve cfg cc
                 (view_of_string (rootUri cc ++ "/" ++ rel)) Hinstalled false ("/" ++ rel)).
      + reflexivity.
      + cbn [sv_chars view_of_string].
        change (rootUri cc ++ "/" ++ rel) with (rootUri cc ++ String "/" rel).
        now rewrite StartsWith_separator.
      + right; right. apply StartsWith_app.
      + reflexivity.
      + left. discriminate. }
  destruct (string_dec (rootPath cfg) "") as [Hroot | Hroot].
  - assert (Hpath : under_root cfg rel = rootPath cfg ++ rel)
      by (rewrite (under_root_empty rel Hroot); now rewrite Hroot).
    rewrite Hpath at 1. rewrite (Hforth _ Hthere rel); [reflexivity|].
    apply Hback. right. split; [reflexivity | now apply Hrelative].
  - assert (Hpath : under_root cfg rel = rootPath cfg ++ "/" ++ rel)
      by (now apply under_root_nonempty).
    rewrite Hpath at 1. rewrite (Hforth _ Hthere ("/" ++ rel)); [reflexivity|].
    apply Hback. now left.
Qed.

Section FileReferences.

Context `{Core}.

(** C8.  With the client configuration installed, [fileRef2Uri] gives
    "???" for a reference that does not exist; for a payload file
    "sorbet:" + path when the client supports the synthetic scheme and
    the path itself when it does not; for any other existing file what
    [localName2Remote] gives for the file's path. *)
Theorem fileRef2Uri_cases (gs : GlobalState) (file : FileRef) :
  (FileRef_exists file = false -> fileRef2Uri cfg gs file = Ok "???")
  /\ (FileRef_exists file = true ->
      File_isPayload (FileRef_data file gs) = true ->
      enableSorbetURIs cc = true ->
      fileRef2Uri cfg gs file = Ok (sorbetScheme ++ File_path (FileRef_data file gs)))
  /\ (FileRef_exists file = true ->
      File_isPayload (FileRef_data file gs) = true ->
      enableSorbetURIs cc = false ->
      fileRef2Uri cfg gs file = Ok (File_path (FileRef_data file gs)))
  /\ (FileRef_exists file = true ->
      File_isPayload (FileRef_data file gs) = false ->
      fileRef2Uri cfg gs file = localName2Remote cfg (File_path (FileRef_data file gs))).
Proof.
  unfold fileRef2Uri, assertHasClientConfig. rewrite Hinstalled. cbn [bind pointee].
  repeat split.
  - now intros ->.
  - intros -> -> ->. cbn [negb]. unfold Absl.StrCat. cbn [fold_right].
    now rewrite app_empty_r.
  - now intros -> -> ->.
  - now intros -> ->.
Qed.

End FileReferences.

End LocalToRemote.

Lemma round_trip_under_root_witness :
  let cfg := Sample.session "/ws" (Some (Sample.client "file:///ws" false)) in
  let monaco := Sample.session "/ws" (Some (Sample.client "" false)) in
  let here := Sample.session "" (Some (Sample.client "file:///ws" false)) in
  @round_trip Sample.never_ignored cfg "/ws/lib/a.rb" = (Ok "/ws/lib/a.rb", [])
  /\ @round_trip Sample.never_ignored monaco "/ws/lib/a.rb" = (Ok "/ws/lib/a.rb", [])
  /\ @round_trip Sample.never_ignored here "lib/a.rb" = (Ok "lib/a.rb", []).
Proof.
  intros cfg monaco here. split; [|split].
  - apply (@round_trip_under_root Sample.never_ignored cfg
             (Sample.client "file:///ws" false) eq_refl "lib/a.rb").
    + reflexivity.
    + discriminate.
    + discriminate.
    + reflexivity.
    + discriminate.
  - apply (@round_trip_under_root Sample.never_ignored monaco
             (Sample.client "" false) eq_refl "lib/a.rb").
    + reflexivity.
    + discriminate.
    + discriminate.
    + reflexivity.
    + intros _. split; reflexivity.
  - apply (@round_trip_under_root Sample.never_ignored here
             (Sample.client "file:///ws" false) eq_refl "lib/a.rb").
    + reflexivity.
    + discriminate.
    + reflexivity.
    + reflexivity.
    + discriminate.
Defined.

(** C1, as the spec words it, fails for a client with an empty [rootUri]
    and a file whose name begins with "sorbet:": "/ws/sorbet:x" is
    strictly under "/ws", the client does not use the synthetic scheme
    and no ignore rule matches, yet the path comes back as "/ws/x". *)
Lemma round_trip_counterexample :
  let cfg := Sample.session "/ws" (Some (Sample.client "" false)) in
  let path := "/ws/sorbet:x" in
  path = rootPath cfg ++ "/" ++ "sorbet:x"
  /\ option_map enableSorbetURIs (clientConfig cfg) = Some false
  /\ @isFileIgnored Sample.never_ignored cfg path = false
  /\ @FileOps_isFileIgnored Sample.never_ignored (rootPath cfg) path
       (lspDirsMissingFromClient (opts cfg)) [] = false
  /\ @localName2Remote Sample.never_ignored cfg path = Ok "sorbet:x"
  /\ remoteName2Local cfg (view_of_string "sorbet:x") = (Ok "/ws/x", [])
  /\ @round_trip Sample.never_ignored cfg path <> (Ok path, []).
Proof.
  cbv zeta. repeat split; try reflexivity.
  vm_compute. discriminate.
Qed.

(** Each further condition of the amended round trip is needed. *)
Example round_trip_needs_plain_rootUri :
  let cfg := Sample.session "/ws" (Some (Sample.client "sorbet:ws" false)) in
  @round_trip Sample.never_ignored cfg "/ws/a.rb" = (Ok "/ws/ws/a.rb", []).
Proof. reflexivity. Qed.

Example round_trip_needs_no_leading_slash :
  let cfg := Sample.session "/ws" (Some (Sample.client "" false)) in
  @round_trip Sample.never_ignored cfg "/ws//a.rb" = (Ok "/ws/a.rb", []).
Proof. reflexivity. Qed.

(** Under an empty [rootPath] a relative part that begins with '/' (an
    absolute path, not one under the current directory) loses the '/'. *)
Example round_trip_needs_relative_path :
  let cfg := Sample.session "" (Some (Sample.client "file:///ws" false)) in
  under_root cfg "/a.rb" = "/a.rb"
  /\ @round_trip Sample.never_ignored cfg (under_root cfg "/a.rb") = (Ok "a.rb", []).
Proof. split; reflexivity. Qed.

(** C3.  The path "/ws" begins with the [rootPath] "/ws", so the
    precondition the code asserts holds, and the client configuration is
    installed; [localName2Remote] does not return a string: the
    remainder after the prefix is empty and reading its first character
    throws [std::out_of_range]. *)
Lemma localName2Remote_root_faults :
  let cfg := Sample.session "/ws" (Some (Sample.client "file:///ws" false)) in
  Absl.StartsWith "/ws" (rootPath cfg) = true
  /\ @localName2Remote Sample.never_ignored cfg "/ws" = Fail OutOfRange.
Proof.
  intros cfg.
  exact (@localName2Remote_at_root Sample.never_ignored cfg
           (Sample.client "file:///ws" false) eq_refl).
Qed.

Lemma fileRef2Uri_cases_witness :
  let payload := {| Sample.sample_path := "rbi/core/string.rbi";
                    Sample.sample_payload := true; Sample.sample_lineStarts := [] |} in
  let source := {| Sample.sample_path := "/ws/lib/a.rb";
                   Sample.sample_payload := false; Sample.sample_lineStarts := [] |} in
  let gs := [payload; source] in
  let plain := Sample.session "/ws" (Some (Sample.client "file:///ws" false)) in
  let synthetic := Sample.session "/ws" (Some (Sample.client "file:///ws" true)) in
  @fileRef2Uri Sample.never_ignored Sample.table plain gs 0 = Ok "???"
  /\ @fileRef2Uri Sample.never_ignored Sample.table synthetic gs 1
     = Ok "sorbet:rbi/core/string.rbi"
  /\ @fileRef2Uri Sample.never_ignored Sample.table plain gs 1
     = Ok "rbi/core/string.rbi"
  /\ @fileRef2Uri Sample.never_ignored Sample.table plain gs 2
     = Ok "file:///ws/lib/a.rb".
Proof.
  intros payload source gs plain synthetic.
  pose proof (@fileRef2Uri_cases Sample.never_ignored plain
                (Sample.client "file:///ws" false) eq_refl Sample.table gs)
    as Hplain.
  pose proof (@fileRef2Uri_cases Sample.never_ignored synthetic
                (Sample.client "file:///ws" true) eq_refl Sample.table gs)
    as Hsynthetic.
  destruct (Hplain 0) as (Hmissing & _).
  destruct (Hsynthetic 1) as (_ & Hscheme & _).
  destruct (Hplain 1) as (_ & _ & Hbare & _).
  destruct (Hplain 2) as (_ & _ & _ & Hlocal).
  split; [exact (Hmissing eq_refl)|].
  split; [exact (Hscheme eq_refl eq_refl eq_refl)|].
  split; [exact (Hbare eq_refl eq_refl eq_refl)|].
  exact (Hlocal eq_refl eq_refl).
Defined.

(* ================================================================== *)
(** * Further properties of the code *)

(** ** Construction and the time before negotiation *)

(** X1.  The constructor succeeds exactly on one input directory: that
    directory becomes [rootPath], the session is not initialized and has
    no client configuration, and nothing is logged.  With any other
    number of directories it logs one error and throws
    [EarlyReturnWithCode(1)]; the bounds-checked [at(0)] never throws. *)
Theorem LSPConfiguration_ctor_single_root (o : Options) (skip fast : bool) :
  (forall dir, rawInputDirNames o = [dir] ->
     LSPConfiguration_ctor o skip fast
     = (Ok {| initialized := false; opts := o; skipConfigatron := skip;
              disableFastPath := fast; rootPath := dir; clientConfig := None |}, []))
  /\ (List.length (rawInputDirNames o) <> 1 ->
      LSPConfiguration_ctor o skip fast
      = (Fail (EarlyReturnWithCode 1),
         ["Sorbet's language server requires a single input directory."]))
  /\ fst (LSPConfiguration_ctor o skip fast) <> Fail OutOfRange.
Proof.
  unfold LSPConfiguration_ctor, getRootPath.
  split; [|split].
  - intros dir ->. reflexivity.
  - intros Hlen. apply Nat.eqb_neq in Hlen. now rewrite Hlen.
  - destruct (rawInputDirNames o) as [|dir [|other rest]]; cbn; discriminate.
Qed.

Lemma LSPConfiguration_ctor_single_root_witness :
  fst (LSPConfiguration_ctor Sample.options false false)
  = Ok (Sample.session "/ws" None)
  /\ LSPConfiguration_ctor
       {| rawInputDirNames := ["/a"; "/b"]; absoluteIgnorePatterns := [];
          relativeIgnorePatterns := []; lspDirsMissingFromClient := [] |} false false
     = (Fail (EarlyReturnWithCode 1),
        ["Sorbet's language server requires a single input directory."]).
Proof.
  split.
  - pose proof (LSPConfiguration_ctor_single_root Sample.options false false)
      as (Hone & _).
    now rewrite (Hone "/ws" eq_refl).
  - refine (proj1 (proj2 (LSPConfiguration_ctor_single_root _ false false)) _).
    cbn. discriminate.
Defined.

Section BeforeNegotiation.

Context `{FileOps} {core : Core} {lookup : @CoreLookup core} {ranges : @CoreRanges core}.
Variable cfg : LSPConfiguration.
Hypothesis Hnone : clientConfig cfg = None.

(** X2.  Before a client configuration is installed every operation that
    consults it raises "clientConfig is not initialized." and logs
    nothing; [localName2Remote] does so for every path that meets its
    precondition. *)
Theorem operations_need_clientConfig (uri : string_view) (gs : GlobalState)
    (file : FileRef) (loc : Loc) (path : string) :
  let fault := Raised "clientConfig is not initialized." in
  getClientConfig cfg = Fail fault
  /\ isUriInWorkspace cfg (sv_chars uri) = Fail fault
  /\ remoteName2Local cfg uri = (Fail fault, [])
  /\ uri2FileRef cfg gs uri = (Fail fault, [])
  /\ fileRef2Uri cfg gs file = Fail fault
  /\ loc2Location cfg gs loc = Fail fault
  /\ (Absl.StartsWith path (rootPath cfg) = true ->
      localName2Remote cfg path = Fail fault).
Proof.
  unfold getClientConfig, isUriInWorkspace, remoteName2Local, uri2FileRef,
    fileRef2Uri, loc2Location, localName2Remote, assertHasClientConfig.
  rewrite Hnone. cbn [bind].
  repeat split.
  now intros ->.
Qed.

End BeforeNegotiation.

Lemma operations_need_clientConfig_witness :
  let cfg := Sample.session "/ws" None in
  remoteName2Local cfg (view_of_string "file:///ws/a.rb")
  = (Fail (Raised "clientConfig is not initialized."), [])
  /\ @localName2Remote Sample.never_ignored cfg "/ws/a.rb"
     = Fail (Raised "clientConfig is not initialized.").
Proof.
  intros cfg.
  pose proof (@operations_need_clientConfig Sample.never_ignored Sample.table
                SampleCore.lookup SampleCore.ranges cfg eq_refl
                (view_of_string "file:///ws/a.rb") [] 0
                (@mkLoc Sample.table 0 0%Z 0%Z) "/ws/a.rb")
    as (_ & _ & Hremote & _ & _ & _ & Hlocal).
  split; [exact Hremote | exact (Hlocal eq_refl)].
Defined.

(** ** The life of a session *)

Lemma call_keeps (cfg : LSPConfiguration) (c : SessionCall) :
  rootPath (call cfg c) = rootPath cfg
  /\ opts (call cfg c) = opts cfg
  /\ (initialized cfg = true -> initialized (call cfg c) = true)
  /\ (forall cc, clientConfig cfg = Some cc -> clientConfig (call cfg c) = Some cc).
Proof.
  destruct c as [newConfig|]; cbn [call].
  - unfold setClientConfig. destruct (clientConfig cfg) as [installed|] eqn:Hcc;
      cbn [fst with_clientConfig rootPath opts initialized clientConfig].
    + repeat split; auto. intros cc Heq. congruence.
    + repeat split; auto. intros cc Habs. discriminate.
  - cbn. repeat split; auto.
Qed.

Lemma calls_keep_config (cs : list SessionCall) (cfg : LSPConfiguration)
    (cc : LSPClientConfiguration) :
  clientConfig cfg = Some cc -> clientConfig (calls cfg cs) = Some cc.
Proof.
  unfold calls. revert cfg; induction cs as [|c rest IH]; intros cfg Hcc; cbn [fold_left].
  - exact Hcc.
  - apply IH. now apply (call_keeps cfg c).
Qed.

(** X3.  Whatever calls of [setClientConfig] and [markInitialized] follow, in
    any number and order: [rootPath] and the options stay what they
    were, a session that is initialized stays initialized, an installed
    client configuration stays the one installed, and after any
    [markInitialized] the session is initialized. *)
Theorem calls_invariants (cs : list SessionCall) (cfg : LSPConfiguration) :
  rootPath (calls cfg cs) = rootPath cfg
  /\ opts (calls cfg cs) = opts cfg
  /\ (initialized cfg = true -> isInitialized (calls cfg cs) = true)
  /\ (forall cc, clientConfig cfg = Some cc -> clientConfig (calls cfg cs) = Some cc)
  /\ (In CallMarkInitialized cs -> isInitialized (calls cfg cs) = true).
Proof.
  unfold calls, isInitialized.
  revert cfg; induction cs as [|c rest IH]; intros cfg; cbn [fold_left].
  - repeat split; auto.
  - destruct (call_keeps cfg c) as (Hroot & Hopts & Hinit & Hcc).
    destruct (IH (call cfg c)) as (IHroot & IHopts & IHinit & IHcc & IHmark).
    split; [congruence|]. split; [congruence|].
    split; [auto|]. split; [auto|].
    intros [-> | Hin]; [|auto].
    apply IHinit. reflexivity.
Qed.

Lemma calls_invariants_witness :
  let cc := Sample.client "file:///ws" false in
  let other := Sample.client "file:///elsewhere" true in
  let cs := [CallSetClientConfig (Some other); CallMarkInitialized;
             CallSetClientConfig None] in
  let cfg := Sample.session "/ws" (Some cc) in
  clientConfig (calls cfg cs) = Some cc
  /\ isInitialized (calls cfg cs) = true
  /\ isInitialized (calls (calls cfg cs) [CallSetClientConfig (Some other)]) = true.
Proof.
  intros cc other cs cfg.
  pose proof (calls_invariants cs cfg) as (_ & _ & _ & Hcc & Hmark).
  pose proof (calls_invariants [CallSetClientConfig (Some other)] (calls cfg cs))
    as (_ & _ & Hstay & _).
  assert (Hin : In CallMarkInitialized cs) by (right; left; reflexivity).
  split; [exact (Hcc cc eq_refl)|].
  split; [exact (Hmark Hin) | exact (Hstay (Hmark Hin))].
Defined.

(** X4.  The client configuration is written once: on a session without one,
    a run of calls leaves installed the first non-null configuration it
    was given, and every later [setClientConfig] is refused. *)
Theorem calls_first_config (cs : list SessionCall) (cfg : LSPConfiguration) :
  clientConfig cfg = None ->
  clientConfig (calls cfg cs) = first_config cs.
Proof.
  unfold calls.
  revert cfg; induction cs as [|c rest IH]; intros cfg Hnone; cbn [fold_left].
  - exact Hnone.
  - destruct c as [[cc|]|]; cbn [first_config].
    + assert (Hset : clientConfig (call cfg (CallSetClientConfig (Some cc))) = Some cc).
      { cbn [call]. unfold setClientConfig. now rewrite Hnone. }
      exact (calls_keep_config rest _ cc Hset).
    + apply IH. cbn [call]. unfold setClientConfig. now rewrite Hnone.
    + apply IH. exact Hnone.
Qed.

Lemma calls_first_config_witness :
  let first := Sample.client "file:///ws" false in
  let second := Sample.client "file:///elsewhere" true in
  clientConfig
    (calls (Sample.session "/ws" None)
       [CallMarkInitialized; CallSetClientConfig None;
        CallSetClientConfig (Some first); CallSetClientConfig (Some second)])
  = Some first.
Proof.
  intros first second.
  exact (calls_first_config
           [CallMarkInitialized; CallSetClientConfig None;
            CallSetClientConfig (Some first); CallSetClientConfig (Some second)]
           (Sample.session "/ws" None) eq_refl).
Defined.

(** ** Negotiated values *)

Lemma getPreferredMarkupKind_Markdown (formats : list MarkupKind) :
  getPreferredMarkupKind formats = Markdown <-> In Markdown formats.
Proof.
  unfold getPreferredMarkupKind. split.
  - intros Hk. destruct (In_Markdown_dec formats) as [Hin | Hnot]; [exact Hin|].
    rewrite (find_markdown_none _ Hnot) in Hk. discriminate.
  - intros Hin. now rewrite find_markdown_some.
Qed.

(** X5.  Markdown is negotiated, for completion documentation and for hover
    alike, exactly when the client sent the list in question and
    Markdown is in it. *)
Theorem negotiated_markdown (p : InitializeParams) :
  (clientCompletionItemMarkupKind (LSPClientConfiguration_ctor p) = Markdown
   <-> exists formats,
         advertised_documentationFormat p = Some formats /\ In Markdown formats)
  /\ (clientHoverMarkupKind (LSPClientConfiguration_ctor p) = Markdown
      <-> exists formats,
            advertised_contentFormat p = Some formats /\ In Markdown formats).
Proof.
  unfold advertised_documentationFormat, advertised_contentFormat,
    LSPClientConfiguration_ctor.
  cbn [clientCompletionItemMarkupKind clientHoverMarkupKind default_client_configuration].
  split.
  - destruct (textDocument (capabilities p)) as [td|];
      [destruct (completion td) as [c|];
       [destruct (completionItem c) as [ci|];
        [destruct (documentationFormat ci) as [formats|]|]|]|].
    + rewrite getPreferredMarkupKind_Markdown. split.
      * intros Hin. now exists formats.
      * intros (l & Hl & Hin). now injection Hl as <-.
    + split; [discriminate | intros (l & Hl & _); discriminate].
    + split; [discriminate | intros (l & Hl & _); discriminate].
    + split; [discriminate | intros (l & Hl & _); discriminate].
    + split; [discriminate | intros (l & Hl & _); discriminate].
  - destruct (textDocument (capabilities p)) as [td|];
      [destruct (hover td) as [h|];
       [destruct (contentFormat h) as [formats|]|]|].
    + rewrite getPreferredMarkupKind_Markdown. split.
      * intros Hin. now exists formats.
      * intros (l & Hl & Hin). now injection Hl as <-.
    + split; [discriminate | intros (l & Hl & _); discriminate].
    + split; [discriminate | intros (l & Hl & _); discriminate].
    + split; [discriminate | intros (l & Hl & _); discriminate].
Qed.

Lemma negotiated_markdown_witness :
  let item := {| snippetSupport := None;
                 documentationFormat := Some [Plaintext; Markdown] |} in
  let p := {| params_rootUri := None;
              capabilities :=
                {| textDocument :=
                     Some {| completion := Some {| completionItem := Some item |};
                             hover := Some {| contentFormat := Some [Plaintext] |} |} |};
              initializationOptions := None |} in
  clientCompletionItemMarkupKind (LSPClientConfiguration_ctor p) = Markdown
  /\ clientHoverMarkupKind (LSPClientConfiguration_ctor p) <> Markdown.
Proof.
  intros item p.
  destruct (negotiated_markdown p) as (Hcompletion & Hhover).
  split.
  - apply Hcompletion. exists [Plaintext; Markdown].
    split; [reflexivity | right; left; reflexivity].
  - intros Hk. apply Hhover in Hk as (formats & Hsent & Hin).
    injection Hsent as <-. destruct Hin as [Hin | []]. discriminate.
Defined.

Lemma value_or_false_true (o : option bool) : value_or o false = true <-> o = Some true.
Proof. destruct o as [[|]|]; cbn; split; congruence. Qed.

(** X6.  Negotiation switches nothing on by itself: each of the four flags is
    true exactly when the client sent the record holding it and set it
    to true there. *)
Theorem negotiated_flags (p : InitializeParams) :
  (clientCompletionItemSnippetSupport (LSPClientConfiguration_ctor p) = true
   <-> exists ci, advertised_completionItem p = Some ci /\ snippetSupport ci = Some true)
  /\ (enableOperationNotifications (LSPClientConfiguration_ctor p) = true
      <-> exists io, initializationOptions p = Some io
                     /\ supportsOperationNotifications io = Some true)
  /\ (enableTypecheckInfo (LSPClientConfiguration_ctor p) = true
      <-> exists io, initializationOptions p = Some io
                     /\ enableTypecheckInfo_opt io = Some true)
  /\ (enableSorbetURIs (LSPClientConfiguration_ctor p) = true
      <-> exists io, initializationOptions p = Some io
                     /\ supportsSorbetURIs io = Some true).
Proof.
  assert (Hflag : forall (A : Type) (sent : option A) (field : A -> option bool),
    match sent with Some r => value_or (field r) false | None => false end = true
    <-> exists r, sent = Some r /\ field r = Some true).
  { intros A [r|] field.
    - rewrite value_or_false_true. split.
      + intros Hr. now exists r.
      + intros (r' & Hr' & Hf). now injection Hr' as <-.
    - split; [discriminate | intros (r & Hr & _); discriminate]. }
  unfold LSPClientConfiguration_ctor.
  cbn [clientCompletionItemSnippetSupport enableOperationNotifications
       enableTypecheckInfo enableSorbetURIs default_client_configuration].
  repeat split; try (apply Hflag); try (apply (proj1 (Hflag _ _ _)));
    try (apply (proj2 (Hflag _ _ _))).
Qed.

Lemma negotiated_flags_witness :
  let io := {| supportsOperationNotifications := None;
               enableTypecheckInfo_opt := Some false;
               supportsSorbetURIs := Some true |} in
  let p := {| params_rootUri := Some "file:///ws";
              capabilities := {| textDocument := None |};
              initializationOptions := Some io |} in
  enableSorbetURIs (LSPClientConfiguration_ctor p) = true
  /\ enableTypecheckInfo (LSPClientConfiguration_ctor p) <> true.
Proof.
  intros io p.
  destruct (negotiated_flags p) as (_ & _ & Hinfo & Huris).
  split.
  - apply Huris. exists io. split; reflexivity.
  - intros Hk. apply Hinfo in Hk as (io' & Hsent & Hset).
    injection Hsent as <-. discriminate.
Defined.

(** ** More on URI translation *)

Section Translation.

Context `{FileOps}.
Variables (cfg : LSPConfiguration) (cc : LSPClientConfiguration).
Hypothesis Hinstalled : clientConfig cfg = Some cc.

Lemma length_zero_empty (s : string) : Nat.eqb (length s) 0 = true <-> s = "".
Proof. destruct s; cbn; split; congruence. Qed.

(** What a successful [localName2Remote] was given and what it built. *)
Lemma localName2Remote_inv (path remote : string) :
  localName2Remote cfg path = Ok remote ->
  exists rem, rem <> "" /\ path = rootPath cfg ++ rem
              /\ remote = remote_name cfg cc path (strip_slash rem).
Proof.
  intros Hok.
  destruct (Absl.StartsWith path (rootPath cfg)) eqn:Hpre.
  - pose proof (StartsWith_split _ _ Hpre) as Hsplit.
    set (rem := Str.drop (length (rootPath cfg)) path) in *.
    exists rem. destruct rem as [|c r] eqn:Hrem.
    + rewrite app_empty_r in Hsplit. rewrite Hsplit in Hok.
      rewrite (proj2 (localName2Remote_at_root cfg cc Hinstalled)) in Hok. discriminate.
    + split; [discriminate|]. split; [exact Hsplit|].
      rewrite Hsplit in Hok at 1.
      rewrite (localName2Remote_below cfg cc Hinstalled) in Hok by discriminate.
      injection Hok as <-. now rewrite <- Hsplit.
  - unfold localName2Remote in Hok. rewrite Hpre in Hok. discriminate.
Qed.

Lemma remote_name_prefix (path rel : string) :
  Absl.StartsWith (remote_name cfg cc path rel) (rootUri cc) = true
  \/ Absl.StartsWith (remote_name cfg cc path rel) sorbetScheme = true.
Proof.
  unfold remote_name.
  destruct (Nat.eqb (length (rootUri cc)) 0) eqn:Hlen.
  - left. apply length_zero_empty in Hlen. now rewrite Hlen.
  - destruct (enableSorbetURIs cc && _).
    + right. apply StartsWith_app.
    + left. apply StartsWith_app.
Qed.

Lemma remote_name_in_workspace (path rel : string) :
  enableSorbetURIs cc = false ->
  Absl.StartsWith (remote_name cfg cc path rel) (rootUri cc) = true.
Proof.
  intros Hplain. unfold remote_name. rewrite Hplain. cbn [andb].
  destruct (Nat.eqb (length (rootUri cc)) 0) eqn:Hlen.
  - apply length_zero_empty in Hlen. now rewrite Hlen.
  - apply StartsWith_app.
Qed.

(** X8.  Every URI that [localName2Remote] returns begins with the client's
    [rootUri] or with "sorbet:"; [remoteName2Local] never logs it as
    unrecognized; and for a client without the synthetic scheme it is a
    URI of the workspace. *)
Theorem localName2Remote_recognized (path remote : string) :
  localName2Remote cfg path = Ok remote ->
  (Absl.StartsWith remote (rootUri cc) = true
   \/ Absl.StartsWith remote sorbetScheme = true)
  /\ snd (remoteName2Local cfg (view_of_string remote)) = []
  /\ (enableSorbetURIs cc = false -> isUriInWorkspace cfg remote = Ok true).
Proof.
  intros Hok.
  destruct (localName2Remote_inv path remote Hok) as (rem & _ & _ & ->).
  pose proof (remote_name_prefix path (strip_slash rem)) as Hprefix.
  split; [exact Hprefix|]. split.
  - unfold remoteName2Local. rewrite (clientConfig_installed cfg cc Hinstalled).
    cbn [sv_chars view_of_string].
    destruct Hprefix as [-> | ->]; cbn [negb andb]; rewrite ?andb_false_r; reflexivity.
  - intros Hplain. unfold isUriInWorkspace, assertHasClientConfig.
    rewrite Hinstalled. cbn [bind pointee].
    now rewrite remote_name_in_workspace.
Qed.

(** X9.  Round trips for a client that supports the synthetic scheme, from a
    path [rootPath]/[rel] under a non-empty [rootPath] and with a
    non-empty [rootUri].  A file missing from the client travels as
    "sorbet:" + [rel] and comes back, provided [rel] does not begin
    with '/' and is not taken for an external link.  A file present on
    the client travels as [rootUri]/[rel] and comes back, provided
    [rootUri] does not begin with "sorbet:". *)
Theorem round_trip_synthetic_client (rel : string) :
  enableSorbetURIs cc = true ->
  rootPath cfg <> "" ->
  rootUri cc <> "" ->
  let path := rootPath cfg ++ "/" ++ rel in
  let missing :=
    FileOps_isFileIgnored (rootPath cfg) path (lspDirsMissingFromClient (opts cfg)) [] in
  (missing = true ->
   Absl.StartsWith rel "/" = false ->
   external_link rel = false ->
   localName2Remote cfg path = Ok (sorbetScheme ++ rel)
   /\ round_trip cfg path = (Ok path, []))
  /\ (missing = false ->
      Absl.StartsWith (rootUri cc) sorbetScheme = false ->
      localName2Remote cfg path = Ok (rootUri cc ++ "/" ++ rel)
      /\ round_trip cfg path = (Ok path, [])).
Proof.
  intros Hsynthetic Hroot Huri path missing.
  assert (Hlen : Nat.eqb (length (rootUri cc)) 0 = false).
  { destruct (Nat.eqb (length (rootUri cc)) 0) eqn:E; [|reflexivity].
    apply length_zero_empty in E. contradiction. }
  assert (Hlocal : localName2Remote cfg path
                   = Ok (if missing then sorbetScheme ++ rel else rootUri cc ++ "/" ++ rel)).
  { unfold path. rewrite (localName2Remote_below cfg cc Hinstalled ("/" ++ rel)) by discriminate.
    unfold remote_name. rewrite Hlen, Hsynthetic. cbn [andb].
    change (strip_slash ("/" ++ rel)) with rel. fold path. fold missing.
    now destruct missing. }
  split.
  - intros Hmissing Hslash Hlink. rewrite Hmissing in Hlocal.
    split; [exact Hlocal|].
    unfold round_trip. rewrite Hlocal.
    rewrite (remoteName2Local_resolve cfg cc (view_of_string (sorbetScheme ++ rel))
               Hinstalled true rel).
    + unfold strip_slash. rewrite Hslash, Hlink. cbn [andb].
      now rewrite (under_root_nonempty cfg).
    + apply StartsWith_app.
    + now left.
    + reflexivity.
    + right. exists NUL. split; [reflexivity | discriminate].
  - intros Hpresent Hscheme. rewrite Hpresent in Hlocal.
    split; [exact Hlocal|].
    unfold round_trip. rewrite Hlocal.
    rewrite (remoteName2Local_resolve cfg cc
               (view_of_string (rootUri cc ++ "/" ++ rel)) Hinstalled false ("/" ++ rel)).
    + cbn [andb]. change (strip_slash ("/" ++ rel)) with rel.
      now rewrite (under_root_nonempty cfg).
    + cbn [sv_chars view_of_string].
      change (rootUri cc ++ "/" ++ rel) with (rootUri cc ++ String "/" rel).
      now rewrite StartsWith_separator.
    + right; right. apply StartsWith_app.
    + reflexivity.
    + left. discriminate.
Qed.

(** X10.  The other way round: a URI [rootUri]/[rel] of the workspace, for a
    non-empty [rootUri] that does not begin with "sorbet:", is mapped to
    [rootPath]/[rel], whatever [rel] is and whether or not the file is
    missing from the client; and from there [localName2Remote] gives
    the same URI again, unless the client takes the synthetic scheme
    and the file is missing from it. *)
Theorem remote_round_trip_workspace (rel : string) :
  rootPath cfg <> "" ->
  rootUri cc <> "" ->
  Absl.StartsWith (rootUri cc) sorbetScheme = false ->
  remoteName2Local cfg (view_of_string (rootUri cc ++ "/" ++ rel))
  = (Ok (rootPath cfg ++ "/" ++ rel), [])
  /\ (enableSorbetURIs cc
      && FileOps_isFileIgnored (rootPath cfg) (rootPath cfg ++ "/" ++ rel)
           (lspDirsMissingFromClient (opts cfg)) [] = false ->
      remote_round_trip cfg (view_of_string (rootUri cc ++ "/" ++ rel))
      = (Ok (rootUri cc ++ "/" ++ rel), [])).
Proof.
  intros Hroot Huri Hscheme.
  assert (Hlocal : remoteName2Local cfg (view_of_string (rootUri cc ++ "/" ++ rel))
                   = (Ok (rootPath cfg ++ "/" ++ rel), [])).
  { rewrite (remoteName2Local_resolve cfg cc
               (view_of_string (rootUri cc ++ "/" ++ rel)) Hinstalled false ("/" ++ rel)).
    - cbn [andb]. change (strip_slash ("/" ++ rel)) with rel.
      now rewrite (under_root_nonempty cfg).
    - cbn [sv_chars view_of_string].
      change (rootUri cc ++ "/" ++ rel) with (rootUri cc ++ String "/" rel).
      now rewrite StartsWith_separator.
    - right; right. apply StartsWith_app.
    - reflexivity.
    - left. discriminate. }
  split; [exact Hlocal|].
  intros Hpresent.
  unfold remote_round_trip. rewrite Hlocal. cbn [bind]. f_equal.
  rewrite (localName2Remote_below cfg cc Hinstalled ("/" ++ rel)) by discriminate.
  unfold remote_name. rewrite Hpresent.
  change (strip_slash ("/" ++ rel)) with rel.
  destruct (Nat.eqb (length (rootUri cc)) 0) eqn:E; [|reflexivity].
  apply length_zero_empty in E. contradiction.
Qed.

End Translation.

Lemma localName2Remote_recognized_witness :
  let cfg := Sample.session "/ws" (Some (Sample.client "file:///ws" false)) in
  @localName2Remote Sample.never_ignored cfg "/ws/lib/a.rb" = Ok "file:///ws/lib/a.rb"
  /\ snd (remoteName2Local cfg (view_of_string "file:///ws/lib/a.rb")) = []
  /\ isUriInWorkspace cfg "file:///ws/lib/a.rb" = Ok true.
Proof.
  intros cfg.
  pose proof (@localName2Remote_recognized Sample.never_ignored cfg
                (Sample.client "file:///ws" false) eq_refl
                "/ws/lib/a.rb" "file:///ws/lib/a.rb" eq_refl)
    as (_ & Hquiet & Hinside).
  split; [reflexivity|]. split; [exact Hquiet | exact (Hinside eq_refl)].
Defined.

Lemma round_trip_synthetic_client_witness :
  let cfg := SampleCore.session_without "/ws" ["/vendor"]
               (Some (Sample.client "file:///ws" true)) in
  (@localName2Remote SampleCore.by_prefix cfg "/ws/vendor/gem.rb" = Ok "sorbet:vendor/gem.rb"
   /\ @round_trip SampleCore.by_prefix cfg "/ws/vendor/gem.rb"
      = (Ok "/ws/vendor/gem.rb", []))
  /\ (@localName2Remote SampleCore.by_prefix cfg "/ws/lib/a.rb" = Ok "file:///ws/lib/a.rb"
      /\ @round_trip SampleCore.by_prefix cfg "/ws/lib/a.rb" = (Ok "/ws/lib/a.rb", [])).
Proof.
  intros cfg.
  assert (Hroot : rootPath cfg <> "") by discriminate.
  assert (Huri : rootUri (Sample.client "file:///ws" true) <> "") by discriminate.
  pose proof (@round_trip_synthetic_client SampleCore.by_prefix cfg
                (Sample.client "file:///ws" true) eq_refl "vendor/gem.rb"
                eq_refl Hroot Huri) as (Hmissing & _).
  pose proof (@round_trip_synthetic_client SampleCore.by_prefix cfg
                (Sample.client "file:///ws" true) eq_refl "lib/a.rb"
                eq_refl Hroot Huri) as (_ & Hpresent).
  split.
  - exact (Hmissing eq_refl eq_refl eq_refl).
  - exact (Hpresent eq_refl eq_refl).
Defined.

Lemma remote_round_trip_workspace_witness :
  let cfg := SampleCore.session_without "/ws" ["/vendor"]
               (Some (Sample.client "file:///ws" true)) in
  remoteName2Local cfg (view_of_string "file:///ws/vendor/gem.rb")
  = (Ok "/ws/vendor/gem.rb", [])
  /\ remoteName2Local cfg (view_of_string "file:///ws/lib/a.rb") = (Ok "/ws/lib/a.rb", [])
  /\ @remote_round_trip SampleCore.by_prefix cfg (view_of_string "file:///ws/lib/a.rb")
     = (Ok "file:///ws/lib/a.rb", []).
Proof.
  intros cfg.
  assert (Hroot : rootPath cfg <> "") by discriminate.
  assert (Huri : rootUri (Sample.client "file:///ws" true) <> "") by discriminate.
  pose proof (@remote_round_trip_workspace SampleCore.by_prefix cfg
                (Sample.client "file:///ws" true) eq_refl "vendor/gem.rb"
                Hroot Huri eq_refl) as (Hmissing & _).
  pose proof (@remote_round_trip_workspace SampleCore.by_prefix cfg
                (Sample.client "file:///ws" true) eq_refl "lib/a.rb"
                Hroot Huri eq_refl) as (Hthere & Hback).
  split; [exact Hmissing|]. split; [exact Hthere | exact (Hback eq_refl)].
Defined.

(** ** URIs from outside the workspace *)

Section ForeignUris.

Variables (cfg : LSPConfiguration) (cc : LSPClientConfiguration) (uri : string_view).
Hypothesis Hinstalled : clientConfig cfg = Some cc.

(** X11.  With a client that takes the synthetic scheme the fallback is
    switched off, and a URI that is not a "sorbet:" URI is treated as a
    URI of the workspace whether or not it begins with [rootUri]: if it
    is shorter than [rootUri] the code reads past its end; otherwise its
    first [length rootUri] characters, whatever they are, and one '/'
    are dropped and the rest is mapped under [rootPath], without a log
    line. *)
Theorem remoteName2Local_foreign_uri (pre rest : string) :
  enableSorbetURIs cc = true ->
  Absl.StartsWith (sv_chars uri) sorbetScheme = false ->
  (length (sv_chars uri) < length (rootUri cc) ->
   remoteName2Local cfg uri = (Fail Undefined, []))
  /\ (sv_chars uri = pre ++ rest ->
      length pre = length (rootUri cc) ->
      rest <> "" ->
      remoteName2Local cfg uri = (Ok (under_root cfg (strip_slash rest)), [])).
Proof.
  intros Hsynthetic Hscheme.
  unfold remoteName2Local.
  rewrite (clientConfig_installed cfg cc Hinstalled), Hscheme, Hsynthetic.
  rewrite andb_false_r. cbn [negb andb].
  split.
  - intros Hshort. unfold deref.
    apply Nat.compare_gt_iff in Hshort. now rewrite Hshort.
  - intros Hsplit Hlen Hrest.
    destruct rest as [|c r]; [contradiction|].
    rewrite <- Hlen, (deref_inside uri pre c r Hsplit). cbn [bind].
    assert (Hfinish : forall path,
      (if Nat.ltb 0 (length (rootPath cfg))
       then Ok (Absl.StrCat [rootPath cfg; "/"; path]) else Ok path)
      = Ok (under_root cfg path)).
    { intros path. unfold under_root, Absl.StrCat. cbn [fold_right].
      rewrite app_empty_r. now destruct (Nat.ltb 0 (length (rootPath cfg))). }
    unfold strip_slash. cbn [Absl.StartsWith Str.drop]. rewrite andb_true_r.
    destruct (Ascii.eqb c "/").
    + rewrite (string_from_app_next uri pre c r Hsplit). cbn [bind].
      f_equal. apply Hfinish.
    + rewrite (string_from_app uri pre _ Hsplit). cbn [bind].
      f_equal. apply Hfinish.
Qed.

End ForeignUris.

Lemma remoteName2Local_foreign_uri_witness :
  let cfg := Sample.session "/ws" (Some (Sample.client "file:///ws" true)) in
  remoteName2Local cfg (view_of_string "git:/a") = (Fail Undefined, [])
  /\ remoteName2Local cfg (view_of_string "https://example.com/a.rb")
     = (Ok "/ws/ample.com/a.rb", []).
Proof.
  intros cfg.
  pose proof (remoteName2Local_foreign_uri cfg (Sample.client "file:///ws" true)
                (view_of_string "git:/a") eq_refl "" "" eq_refl eq_refl)
    as (Hshort & _).
  pose proof (remoteName2Local_foreign_uri cfg (Sample.client "file:///ws" true)
                (view_of_string "https://example.com/a.rb") eq_refl
                "https://ex" "ample.com/a.rb" eq_refl eq_refl)
    as (_ & Hchop).
  split.
  - apply Hshort. cbn. lia.
  - apply Hchop; [reflexivity | reflexivity | discriminate].
Defined.

(** ** Lookup of files by URI *)

Section Lookup.

Context `{FileOps} {core : Core} {lookup : @CoreLookup core}.
Variables (cfg : LSPConfiguration) (cc : LSPClientConfiguration) (gs : GlobalState).
Hypothesis Hinstalled : clientConfig cfg = Some cc.

Lemma uri2FileRef_resolved (uri : string_view) (path : string) :
  Absl.StartsWith (sv_chars uri) (rootUri cc) = true
  \/ Absl.StartsWith (sv_chars uri) sorbetScheme = true ->
  remoteName2Local cfg uri = (Ok path, []) ->
  uri2FileRef cfg gs uri = (Ok (GlobalState_findFileByPath gs path), []).
Proof.
  intros Hprefix Hlocal. unfold uri2FileRef.
  rewrite (clientConfig_installed cfg cc Hinstalled), Hlocal.
  destruct Hprefix as [-> | ->]; cbn [negb andb]; rewrite ?andb_false_r; reflexivity.
Qed.

Lemma uri2FileRef_foreign (s : string) :
  Absl.StartsWith s (rootUri cc) = false ->
  Absl.StartsWith s sorbetScheme = false ->
  uri2FileRef cfg gs (view_of_string s) = (Ok FileRef_default, []).
Proof.
  intros Hroot Hscheme. unfold uri2FileRef.
  rewrite (clientConfig_installed cfg cc Hinstalled).
  cbn [sv_chars view_of_string]. now rewrite Hroot, Hscheme.
Qed.

(** X12.  [uri2FileRef] guards [remoteName2Local]: on a URI passed as a whole
    string it never faults and never logs, whatever the URI and whether
    or not the client takes the synthetic scheme; a URI that begins
    with neither [rootUri] nor "sorbet:" gives the default-constructed
    reference without any lookup. *)
Theorem uri2FileRef_total (s : string) :
  (exists file, uri2FileRef cfg gs (view_of_string s) = (Ok file, []))
  /\ (Absl.StartsWith s (rootUri cc) = false ->
      Absl.StartsWith s sorbetScheme = false ->
      uri2FileRef cfg gs (view_of_string s) = (Ok FileRef_default, [])).
Proof.
  split; [|apply uri2FileRef_foreign].
  destruct (Absl.StartsWith s sorbetScheme) eqn:Hscheme.
  - eexists. apply uri2FileRef_resolved; [now right|].
    apply (remoteName2Local_resolve cfg cc (view_of_string s) Hinstalled true
             (Str.drop (length sorbetScheme) s)).
    + exact Hscheme.
    + now left.
    + exact (StartsWith_split s sorbetScheme Hscheme).
    + right. exists NUL. split; [reflexivity | discriminate].
  - destruct (Absl.StartsWith s (rootUri cc)) eqn:Hroot.
    + eexists. apply uri2FileRef_resolved; [now left|].
      apply (remoteName2Local_resolve cfg cc (view_of_string s) Hinstalled false
               (Str.drop (length (rootUri cc)) s)).
      * exact Hscheme.
      * right; right. exact Hroot.
      * exact (StartsWith_split s (rootUri cc) Hroot).
      * right. exists NUL. split; [reflexivity | discriminate].
    + eexists. now apply uri2FileRef_foreign.
Qed.

(** X13.  A file of the workspace is found again by the URI made for it: if
    its path survives the round trip through [localName2Remote] and
    [remoteName2Local] and the file table finds the file by its path,
    then [uri2FileRef] of [fileRef2Uri] is the file. *)
Theorem uri2FileRef_fileRef2Uri (file : FileRef) :
  FileRef_exists file = true ->
  File_isPayload (FileRef_data file gs) = false ->
  round_trip cfg (File_path (FileRef_data file gs))
  = (Ok (File_path (FileRef_data file gs)), []) ->
  GlobalState_findFileByPath gs (File_path (FileRef_data file gs)) = file ->
  exists uri,
    fileRef2Uri cfg gs file = Ok uri
    /\ uri2FileRef cfg gs (view_of_string uri) = (Ok file, []).
Proof.
  intros Hexists Hsource Htrip Hfound.
  unfold round_trip in Htrip.
  destruct (localName2Remote cfg (File_path (FileRef_data file gs)))
    as [remote|f] eqn:Hremote; [|discriminate].
  exists remote. split.
  - unfold fileRef2Uri, assertHasClientConfig.
    rewrite Hinstalled, Hexists, Hsource. cbn [bind negb]. exact Hremote.
  - rewrite (uri2FileRef_resolved (view_of_string remote)
               (File_path (FileRef_data file gs)));
      [now rewrite Hfound| |exact Htrip].
    destruct (localName2Remote_inv cfg cc Hinstalled _ _ Hremote) as (rem & _ & _ & ->).
    apply remote_name_prefix.
Qed.



End Lookup.

Lemma uri2FileRef_total_witness :
  let source := {| Sample.sample_path := "/ws/lib/a.rb";
                   Sample.sample_payload := false; Sample.sample_lineStarts := [] |} in
  let cfg := Sample.session "/ws" (Some (Sample.client "file:///ws" true)) in
  (exists file,
     @uri2FileRef Sample.table SampleCore.lookup cfg [source]
       (view_of_string "file:///ws/lib/a.rb") = (Ok file, []))
  /\ @uri2FileRef Sample.table SampleCore.lookup cfg [source] (view_of_string "git:/a")
     = (Ok 0, []).
Proof.
  intros source cfg.
  pose proof (@uri2FileRef_total Sample.table SampleCore.lookup cfg
                (Sample.client "file:///ws" true) [source] eq_refl "file:///ws/lib/a.rb")
    as (Hsome & _).
  pose proof (@uri2FileRef_total Sample.table SampleCore.lookup cfg
                (Sample.client "file:///ws" true) [source] eq_refl "git:/a")
    as (_ & Hforeign).
  split; [exact Hsome | exact (Hforeign eq_refl eq_refl)].
Defined.

Lemma uri2FileRef_fileRef2Uri_witness :
  let source := {| Sample.sample_path := "/ws/lib/a.rb";
                   Sample.sample_payload := false; Sample.sample_lineStarts := [] |} in
  let cfg := Sample.session "/ws" (Some (Sample.client "file:///ws" false)) in
  exists uri,
    @fileRef2Uri Sample.never_ignored Sample.table cfg [source] 1 = Ok uri
    /\ @uri2FileRef Sample.table SampleCore.lookup cfg [source] (view_of_string uri)
       = (Ok 1, []).
Proof.
  intros source cfg.
  exact (@uri2FileRef_fileRef2Uri Sample.never_ignored Sample.table SampleCore.lookup
           cfg (Sample.client "file:///ws" false) [source] eq_refl 1
           eq_refl eq_refl eq_refl eq_refl).
Defined.


(** ** Locations *)

Section Locations.

Context `{FileOps} {core : Core} {ranges : @CoreRanges core}.
Variables (cfg : LSPConfiguration) (cc : LSPClientConfiguration) (gs : GlobalState).
Hypothesis Hinstalled : clientConfig cfg = Some cc.

(** X15.  [loc2Location] returns null as soon as the range is null, before it
    looks at the file, so even for a file whose path [localName2Remote]
    would fault on.  Otherwise the URI is that of [fileRef2Uri], and the
    fragment "#L" + line (the 1-based line where the [Loc] begins, in
    decimal) is appended to the bare path of a payload file when the
    client does not take the synthetic scheme, and in no other case. *)
Theorem loc2Location_cases (loc : Loc) :
  (Range_fromLoc gs loc = None -> loc2Location cfg gs loc = Ok None)
  /\ (forall range, Range_fromLoc gs loc = Some range ->
      let file := loc_file loc in
      let path := File_path (FileRef_data file gs) in
      let at_ := fun uri => Ok (Some {| location_uri := uri; location_range := range |}) in
      (FileRef_exists file = false -> loc2Location cfg gs loc = at_ "???")
      /\ (FileRef_exists file = true -> File_isPayload (FileRef_data file gs) = true ->
          enableSorbetURIs cc = false ->
          loc2Location cfg gs loc
          = at_ (path ++ "#L" ++ decimal (detail_line (fst (Loc_position loc gs)))))
      /\ (FileRef_exists file = true -> File_isPayload (FileRef_data file gs) = true ->
          enableSorbetURIs cc = true ->
          loc2Location cfg gs loc = at_ (sorbetScheme ++ path))
      /\ (FileRef_exists file = true -> File_isPayload (FileRef_data file gs) = false ->
          loc2Location cfg gs loc = (uri <- localName2Remote cfg path ;; at_ uri))).
Proof.
  unfold loc2Location, fileRef2Uri, assertHasClientConfig.
  rewrite Hinstalled. cbn [bind pointee].
  split.
  - now intros ->.
  - intros range ->. cbn zeta. repeat split.
    + now intros ->.
    + intros -> -> ->. reflexivity.
    + intros -> -> ->. cbn [negb andb bind]. unfold Absl.StrCat. cbn [fold_right].
      now rewrite app_empty_r.
    + intros -> ->. cbn [negb andb].
      now destruct (localName2Remote cfg _).
Qed.

End Locations.

Lemma loc2Location_cases_witness :
  let payload := {| Sample.sample_path := "https://example.com/rbi/core/string.rbi";
                    Sample.sample_payload := true;
                    Sample.sample_lineStarts := [0; 10; 20; 30; 40; 50; 60; 70; 80; 90;
                                                 100; 110; 120]%Z |} in
  let plain := Sample.session "/ws" (Some (Sample.client "file:///ws" false)) in
  let synthetic := Sample.session "/ws" (Some (Sample.client "file:///ws" true)) in
  @loc2Location Sample.never_ignored Sample.table SampleCore.ranges plain [payload]
    (@mkLoc Sample.table 0 5%Z 5%Z) = Ok None
  /\ @loc2Location Sample.never_ignored Sample.table SampleCore.ranges plain [payload]
       (@mkLoc Sample.table 1 115%Z 118%Z)
     = Ok (Some (@mkLocation Sample.table SampleCore.ranges
                   "https://example.com/rbi/core/string.rbi#L12" (115%Z, 118%Z)))
  /\ @loc2Location Sample.never_ignored Sample.table SampleCore.ranges synthetic [payload]
       (@mkLoc Sample.table 1 115%Z 118%Z)
     = Ok (Some (@mkLocation Sample.table SampleCore.ranges
                   "sorbet:https://example.com/rbi/core/string.rbi" (115%Z, 118%Z))).
Proof.
  intros payload plain synthetic.
  pose proof (@loc2Location_cases Sample.never_ignored Sample.table SampleCore.ranges
                plain (Sample.client "file:///ws" false) [payload] eq_refl
                (@mkLoc Sample.table 0 5%Z 5%Z)) as (Hnull & _).
  pose proof (@loc2Location_cases Sample.never_ignored Sample.table SampleCore.ranges
                plain (Sample.client "file:///ws" false) [payload] eq_refl
                (@mkLoc Sample.table 1 115%Z 118%Z)) as (_ & Hplain).
  pose proof (@loc2Location_cases Sample.never_ignored Sample.table SampleCore.ranges
                synthetic (Sample.client "file:///ws" true) [payload] eq_refl
                (@mkLoc Sample.table 1 115%Z 118%Z)) as (_ & Hsynthetic).
  split; [exact (Hnull eq_refl)|]. split.
  - exact (proj1 (proj2 (Hplain (115%Z, 118%Z) eq_refl)) eq_refl eq_refl eq_refl).
  - exact (proj1 (proj2 (proj2 (Hsynthetic (115%Z, 118%Z) eq_refl)))
             eq_refl eq_refl eq_refl).
Defined.

(** ** Negotiation and translation together *)

Section EmptyRootUri.

Context `{FileOps}.

(** X7.  A handshake with a null [rootUri] and one with [rootUri] "/" give
    the same client configuration, with an empty [rootUri]; with either
    installed, [localName2Remote] answers a path [rootPath]/[rel] with
    the bare [rel], whatever the ignore rules and the synthetic-scheme
    flag are. *)
Theorem negotiated_empty_rootUri (p : InitializeParams) (u : option string)
    (cfg : LSPConfiguration) (rel : string) :
  LSPClientConfiguration_ctor (with_rootUri p (Some "/"))
  = LSPClientConfiguration_ctor (with_rootUri p None)
  /\ rootUri (LSPClientConfiguration_ctor (with_rootUri p None)) = ""
  /\ (u = None \/ u = Some "/" ->
      clientConfig cfg = Some (LSPClientConfiguration_ctor (with_rootUri p u)) ->
      localName2Remote cfg (rootPath cfg ++ "/" ++ rel) = Ok rel).
Proof.
  assert (Hsame : LSPClientConfiguration_ctor (with_rootUri p (Some "/"))
                  = LSPClientConfiguration_ctor (with_rootUri p None))
    by (apply ctor_depends_on_rootUri; reflexivity).
  split; [exact Hsame|]. split; [reflexivity|].
  intros Hu Hinstalled.
  assert (Hcc : clientConfig cfg = Some (LSPClientConfiguration_ctor (with_rootUri p None))).
  { destruct Hu as [-> | ->]; [exact Hinstalled | now rewrite <- Hsame]. }
  rewrite (localName2Remote_below cfg _ Hcc ("/" ++ rel)) by discriminate.
  reflexivity.
Qed.

End EmptyRootUri.

Lemma negotiated_empty_rootUri_witness :
  let cc := LSPClientConfiguration_ctor (Sample.params (Some "/")) in
  @localName2Remote Sample.never_ignored (Sample.session "/ws" (Some cc)) "/ws/x/y"
  = Ok "x/y".
Proof.
  intros cc.
  exact (proj2 (proj2 (@negotiated_empty_rootUri Sample.never_ignored
                         (Sample.params None) (Some "/")
                         (Sample.session "/ws" (Some cc)) "x/y"))
           (or_intror eq_refl) eq_refl).
Defined.
